(** * fibgrid: Fibonacci lattice construction and grid realization

    A shallow embedding of [fibgrid/construction.py] and
    [fibgrid/realization.py].

    - NumPy arrays are lists; indexing follows Python (a negative index
      counts from the end, anything else out of range is an error).
    - [np.empty] cells start out as [None] (not yet written).
    - float64 arithmetic of the lattice formulas is idealised by the real
      numbers of the Standard Library ([asin], [sqrt], [PI]): inequalities
      and ranges are stated, no equation that rounding would break.
    - the int64 values of the compiled lattice kernel are unbounded [Z].
      The two agree as long as nothing the kernel computes from [n]
      ([-n], [n + 1], [2 * i], [2 * n + 1], the array size) leaves int64,
      that is for [-2^63 < n] and [2n+1 < 2^63]; the statements that
      would not hold of the kernel outside this range carry the bounds
      as hypotheses.
    - exceptions are the [Err] results of an error monad. *)

From Stdlib Require Import ZArith Lia Lra Reals QArith.QArith_base.
From Stdlib Require Import Strings.String Strings.Ascii.
From stdpp Require Import base option list gmap strings pretty.

(** ** Exceptions and the error monad *)

Inductive exn : Type :=
  | IndexError
  | KeyError (key : string)
  | ValueError (msg : string)
  | UninitialisedRead
  | ExternalError (msg : string).

Inductive result (A : Type) : Type :=
  | Ok (a : A)
  | Err (e : exn).
Arguments Ok {A} a.
Arguments Err {A} e.

Definition rbind {A B} (f : A → result B) (m : result A) : result B :=
  match m with
  | Ok a => f a
  | Err e => Err e
  end.

#[global] Instance result_ret : MRet result := λ A a, Ok a.
#[global] Instance result_bind : MBind result := λ A B f m, rbind f m.

Definition of_option {A} (e : exn) (o : option A) : result A :=
  match o with
  | Some a => Ok a
  | None => Err e
  end.

(** [for x in xs: st = body st x], stopping at the first exception. *)
Fixpoint for_each {S X} (body : S → X → result S) (xs : list X) (st : S)
  : result S :=
  match xs with
  | [] => Ok st
  | x :: xs' => st' ← body st x; for_each body xs' st'
  end.

(** ** Python indexing of a one-dimensional array *)

Module PyArr.

(** The slot an index [i] designates in an array of [len] elements. *)
Definition py_index (len : nat) (i : Z) : option nat :=
  if bool_decide (0 ≤ i < Z.of_nat len)%Z then Some (Z.to_nat i)
  else if bool_decide (- Z.of_nat len ≤ i < 0)%Z
       then Some (Z.to_nat (Z.of_nat len + i))
       else None.

(** [a[i]] *)
Definition getitem {A} (a : list A) (i : Z) : result A :=
  k ← of_option IndexError (py_index (length a) i);
  of_option IndexError (a !! k).

(** [a[i] = v] *)
Definition setitem {A} (a : list A) (i : Z) (v : A) : result (list A) :=
  k ← of_option IndexError (py_index (length a) i);
  Ok (<[k := v]> a).

(** [a[idx]] with an integer index array [idx]. *)
Definition take {A} (a : list A) (idx : list Z) : result (list A) :=
  for_each (λ acc i, x ← getitem a i; Ok (acc ++ [x])) idx [].

(** [np.arange(start, stop)] on integers. *)
Definition arange (start stop : Z) : list Z := seqZ start (stop - start).

(** [np.empty(size)]: cells that hold nothing yet. *)
Definition empty {A} (size : nat) : list (option A) := replicate size None.

(** Reading a cell that may not have been written. *)
Definition getcell {A} (a : list (option A)) (i : Z) : result A :=
  c ← getitem a i; of_option UninitialisedRead c.

End PyArr.

(** ** construction.py *)

Module Construction.
Import PyArr.
Local Open Scope R_scope.

(** [phi = (1.0 + np.sqrt(5)) / 2.0] *)
Definition phi : R := (1 + sqrt 5) / 2.

(** [np.mod(x, y)]: the remainder complementary to floor division. *)
Definition np_mod (x y : R) : R := x - IZR (Int_part (x / y)) * y.

(** The two float arrays the loop fills. *)
Record grid_arrays : Type := GridArrays {
  lat_arr : list (option R);
  lon_arr : list (option R)
}.

(** [np.arcsin((2 * i) / (2 * n + 1)) * 180.0 / np.pi] *)
Definition lat_formula (n i : Z) : R :=
  asin (IZR (2 * i) / IZR (2 * n + 1)) * 180 / PI.

(** [np.mod(i, phi) * 360.0 / phi] *)
Definition lon_formula (i : Z) : R := np_mod (IZR i) phi * 360 / phi.

(** One iteration of [for i in points]. *)
Definition fib_body (n : Z) (st : grid_arrays) (i : Z) : result grid_arrays :=
  lat ← setitem (lat_arr st) i (Some (lat_formula n i));
  lon ← setitem (lon_arr st) i (Some (lon_formula i));
  x ← getcell lon i;
  lon ← (if Rlt_dec x (-180)
         then y ← getcell lon i; setitem lon i (Some (y + 360))
         else Ok lon);
  x ← getcell lon i;
  lon ← (if Rlt_dec 180 x
         then y ← getcell lon i; setitem lon i (Some (y - 360))
         else Ok lon);
  Ok (GridArrays lat lon).

(** The value of [compute_fib_grid]: [(points, gpi, lon, lat)]. *)
Record fib_grid : Type := FibGridTuple {
  points : list Z;
  gpi : list Z;
  lon : list (option R);
  lat : list (option R)
}.

(** [n] is an int64 in the compiled source; see the bounds above for the
    range on which this definition is the code. *)
Definition compute_fib_grid (n : Z) : result fib_grid :=
  let points := arange (- n) (n + 1) in
  let gpi := arange 0 (Z.of_nat (length points)) in
  let lat := empty (length points) in
  let lon := empty (length points) in
  st ← for_each (fib_body n) points (GridArrays lat lon);
  Ok (FibGridTuple points gpi (lon_arr st) (lat_arr st)).

(** The value of [compute_fib_grid_wgs84]:
    [(points, gpi, wgs84_lon, wgs84_lat)]. *)
Record wgs84_grid : Type := Wgs84Tuple {
  w_points : list Z;
  w_gpi : list Z;
  wgs84_lon : list R;
  wgs84_lat : list R
}.

(** The state of the reprojection loop: the counter [i] and the two
    output arrays. *)
Record wgs84_state : Type := Wgs84State {
  ws_i : Z;
  ws_lon : list R;
  ws_lat : list R
}.

Section Reprojection.

(** [transformer.transform(lon, lat)] of the pyproj transformer from
    the sphere to EPSG:4326, an external collaborator: it returns a
    pair, or raises.  Building the two CRS objects and the transformer
    is taken to succeed. *)
Variable transform : R → R → result (R * R).

(** One iteration of [for lon, lat in zip(sphere_lon, sphere_lat)]. *)
Definition wgs84_body (st : wgs84_state) (c : option R * option R)
  : result wgs84_state :=
  lon ← of_option UninitialisedRead c.1;
  lat ← of_option UninitialisedRead c.2;
  r ← transform lon lat;
  wlat ← setitem (ws_lat st) (ws_i st) r.1;
  wlon ← setitem (ws_lon st) (ws_i st) r.2;
  Ok (Wgs84State (ws_i st + 1)%Z wlon wlat).

Definition compute_fib_grid_wgs84 (n : Z) : result wgs84_grid :=
  g ← compute_fib_grid n;
  let wgs84_lon := replicate (length (lon g)) 0 in
  let wgs84_lat := replicate (length (lat g)) 0 in
  st ← for_each wgs84_body (zip (lon g) (lat g))
         (Wgs84State 0 wgs84_lon wgs84_lat);
  Ok (Wgs84Tuple (points g) (gpi g) (ws_lon st) (ws_lat st)).

End Reprojection.

End Construction.

(** ** realization.py *)

Module Realization.
Import PyArr.

(** A value stored in a netCDF variable. *)
Inductive scalar : Type :=
  | SInt (z : Z)
  | SFloat (q : Q).

(** The variables of an opened netCDF file, by name. *)
Abbreviation dataset := (gmap string (list scalar)).

(** What the process does to the outside, in order. *)
Inductive event : Type :=
  | Warn (msg : string)
  | Mkdir
  | UrlRetrieve (url file : string).

(** The outside: the files of [CACHE_DIR] (by file name), the remote
    resources (by URL) and the log of effects so far. *)
Record world : Type := World {
  files : gmap string dataset;
  remote : gmap string dataset;
  events : list event
}.

(** Computations that read and change the world and may raise. *)
Definition io (A : Type) : Type := world → result A * world.

Definition io_ret {A} (a : A) : io A := λ w, (Ok a, w).
Definition io_bind {A B} (f : A → io B) (m : io A) : io B :=
  λ w, match m w with
       | (Ok a, w') => f a w'
       | (Err e, w') => (Err e, w')
       end.
#[global] Instance io_mret : MRet io := λ A a, io_ret a.
#[global] Instance io_mbind : MBind io := λ A B f m, io_bind f m.

Definition raise {A} (e : exn) : io A := λ w, (Err e, w).
Definition lift {A} (r : result A) : io A := λ w, (r, w).
Definition emit (ev : event) : io unit :=
  λ w, (Ok tt, World (files w) (remote w) (events w ++ [ev])).

(** [filename.exists()] *)
Definition file_exists (name : string) : io bool :=
  λ w, (Ok (bool_decide (is_Some (files w !! name))), w).

(** [urllib.request.urlretrieve(url, filename)] *)
Definition urlretrieve (url name : string) : io unit :=
  λ w, let w' := World (files w) (remote w)
                   (events w ++ [UrlRetrieve url name]) in
       match remote w !! url with
       | Some d => (Ok tt, World (<[name := d]> (files w')) (remote w') (events w'))
       | None => (Err (ExternalError "urlretrieve"), w')
       end.

(** [netCDF4.Dataset(filename)] *)
Definition open_dataset (name : string) : io dataset :=
  λ w, (of_option (ExternalError "netCDF4.Dataset") (files w !! name), w).

(** [fp.variables[name][:].data] *)
Definition variable (fp : dataset) (name : string) : result (list scalar) :=
  of_option (KeyError name) (fp !! name).

(** [str.lower] on the ASCII letters; the two valid geodata and every
    string used below are ASCII. *)
Definition lower_ascii (c : ascii) : ascii :=
  let k := nat_of_ascii c in
  if bool_decide (65 ≤ k ≤ 90)%nat then ascii_of_nat (k + 32) else c.

Fixpoint lower (s : string) : string :=
  match s with
  | EmptyString => EmptyString
  | String c s' => String (lower_ascii c) (lower s')
  end.

Definition DATA_URL : gmap string string :=
  list_to_map [
    ("n430000_sphere", "https://github.com/TUW-GEO/fibgrid/releases/download/v0.0.8/fibgrid_sphere_n430000.nc");
    ("n430000_wgs84", "https://github.com/TUW-GEO/fibgrid/releases/download/v0.0.8/fibgrid_wgs84_n430000.nc");
    ("n1650000_sphere", "https://github.com/TUW-GEO/fibgrid/releases/download/v0.0.8/fibgrid_sphere_n1650000.nc");
    ("n1650000_wgs84", "https://github.com/TUW-GEO/fibgrid/releases/download/v0.0.8/fibgrid_wgs84_n1650000.nc");
    ("n6600000_sphere", "https://github.com/TUW-GEO/fibgrid/releases/download/v0.0.8/fibgrid_sphere_n6600000.nc");
    ("n6600000_wgs84", "https://github.com/TUW-GEO/fibgrid/releases/download/v0.0.8/fibgrid_wgs84_n6600000.nc")
  ].

Definition metadata_fields : list string :=
  ["land_frac_fw"; "land_frac_hw"; "land_mask_hw"; "land_mask_fw"; "land_flag"].

(** An array used as an index array must hold integers. *)
Definition as_index (s : scalar) : result Z :=
  match s with
  | SInt z => Ok z
  | SFloat _ => Err IndexError
  end.

Fixpoint as_indices (a : list scalar) : result (list Z) :=
  match a with
  | [] => Ok []
  | s :: a' => z ← as_index s; zs ← as_indices a'; Ok (z :: zs)
  end.

(** [a[idx]] with [idx] read from the file. *)
Definition fancy (a idx : list scalar) : result (list scalar) :=
  zs ← as_indices idx; take a zs.

(** The value of [read_grid_file]: [(lon, lat, cell, gpi, metadata)];
    the record array [metadata] is kept as its named columns. *)
Record grid_file : Type := GridFile {
  gf_lon : list scalar;
  gf_lat : list scalar;
  gf_cell : list scalar;
  gf_gpi : list scalar;
  gf_metadata : list (string * list scalar)
}.

(** [np.rec.fromarrays(metadata_list, names=metadata_fields)]: the
    columns must have one shape.  The text of the [ValueError] is
    NumPy's and is not reproduced. *)
Definition fromarrays (cols : list (list scalar)) (names : list string)
  : result (list (string * list scalar)) :=
  match cols with
  | [] => Ok []
  | c :: _ =>
      if forallb (λ c', Nat.eqb (length c') (length c)) cols
      then Ok (zip names cols)
      else Err (ValueError "array-shape mismatch in array")
  end.

(** The body of [with netCDF4.Dataset(filename) as fp]. *)
Definition read_variables (fp : dataset) (sort_order : string)
  : result (list scalar * list scalar * list scalar * list scalar
            * list (list scalar)) :=
  lon ← variable fp "lon";
  lat ← variable fp "lat";
  cell ← variable fp "cell";
  gpi ← variable fp "gpi";
  if bool_decide (sort_order ≠ "none") then
    idx ← variable fp (sort_order +:+ "_sorting");
    lon ← fancy lon idx;
    lat ← fancy lat idx;
    cell ← fancy cell idx;
    gpi ← fancy gpi idx;
    metadata_list ← for_each
      (λ acc f, d ← variable fp f; c ← fancy d idx; Ok (acc ++ [c]))
      metadata_fields [];
    Ok (lon, lat, cell, gpi, metadata_list)
  else
    metadata_list ← for_each
      (λ acc f, d ← variable fp f; Ok (acc ++ [d]))
      metadata_fields [];
    Ok (lon, lat, cell, gpi, metadata_list).

(** [f"fibgrid_{geodatum.lower()}_n{n}.nc"], the name under [CACHE_DIR]. *)
Definition grid_filename (n : Z) (geodatum : string) : string :=
  "fibgrid_" +:+ lower geodatum +:+ "_n" +:+ pretty n +:+ ".nc".

(** [f"n{n}_{geodatum.lower()}"], the key into [DATA_URL]. *)
Definition data_url_key (n : Z) (geodatum : string) : string :=
  "n" +:+ pretty n +:+ "_" +:+ lower geodatum.

Definition read_grid_file (n : Z) (geodatum sort_order : string)
  : io grid_file :=
  let filename := grid_filename n geodatum in
  present ← file_exists filename;
  _ ← (if negb present then
         _ ← emit (Warn "You are about to download the fibonacci grid file: {filename.name}");
         _ ← emit Mkdir;
         let key := data_url_key n geodatum in
         url ← lift (of_option (KeyError key) (DATA_URL !! key));
         urlretrieve url filename
       else mret tt);
  _ ← (if bool_decide (geodatum ∉ ["sphere"; "WGS84"])
       then raise (ValueError ("Geodatum unknown: " +:+ geodatum))
       else mret tt);
  _ ← (if bool_decide (sort_order ∉ ["none"; "latband"])
       then raise (ValueError ("Grid point sort order unknown: " +:+ sort_order))
       else mret tt);
  fp ← open_dataset filename;
  v ← lift (read_variables fp sort_order);
  let '(lon, lat, cell, gpi, metadata_list) := v in
  metadata ← lift (fromarrays metadata_list metadata_fields);
  mret (GridFile lon lat cell gpi metadata).

(** [pygeogrids.grids.CellGrid], an external class: what its constructor
    keeps of [(lon, lat, cells, gpis, subset, geodatum)].  With a subset
    the active arrays are the arrays indexed by it; without one they are
    the arrays themselves.  The constructor's own checks on its
    arguments (arrays of one shape) are outside this repository and are
    not modelled: nothing below is stated about a constructor call that
    fails, other than by the subset indexing. *)
Record CellGrid : Type := MkCellGrid {
  arrlon : list scalar;
  arrlat : list scalar;
  arrcell : list scalar;
  gpis : list scalar;
  subset : option (list Z);
  geodatum_name : string;
  activearrlon : list scalar;
  activearrlat : list scalar;
  activearrcell : list scalar;
  activegpis : list scalar
}.

Definition CellGrid_init (lon lat cell gpi : list scalar)
    (subset : option (list Z)) (geodatum : string) : result CellGrid :=
  match subset with
  | None => Ok (MkCellGrid lon lat cell gpi None geodatum lon lat cell gpi)
  | Some s =>
      alon ← take lon s;
      alat ← take lat s;
      acell ← take cell s;
      agpi ← take gpi s;
      Ok (MkCellGrid lon lat cell gpi (Some s) geodatum alon alat acell agpi)
  end.

(** The instance attributes after [__init__]: [res], [metadata] and the
    state of the [CellGrid] base class ([lut], set to [None] by [FibGrid],
    is left out). *)
Record grid_object : Type := GridObject {
  res : Q;
  metadata : list (string * list scalar);
  base : CellGrid
}.

(** The chain of comparisons [self.res == 6.25], [== 12.5], [== 25]. *)
Definition resolution_n (res : Q) : result Z :=
  if Qeq_bool res (25 # 4) then Ok 6600000%Z
  else if Qeq_bool res (25 # 2) then Ok 1650000%Z
  else if Qeq_bool res (25 # 1) then Ok 430000%Z
  else Err (ValueError "Resolution unknown").

(** [FibGrid.__init__] *)
Definition FibGrid_init (res : Q) (geodatum sort_order : string)
  : io grid_object :=
  n ← lift (resolution_n res);
  f ← read_grid_file n geodatum sort_order;
  b ← lift (CellGrid_init (gf_lon f) (gf_lat f) (gf_cell f) (gf_gpi f)
              None geodatum);
  mret (GridObject res (gf_metadata f) b).

(** [np.nonzero(a)[0]] *)
Definition is_nonzero (s : scalar) : bool :=
  match s with
  | SInt z => negb (Z.eqb z 0)
  | SFloat q => negb (Qeq_bool q 0)
  end.

Fixpoint nonzero_from (k : Z) (a : list scalar) : list Z :=
  match a with
  | [] => []
  | s :: a' => if is_nonzero s then k :: nonzero_from (k + 1) a'
               else nonzero_from (k + 1) a'
  end.

Definition nonzero (a : list scalar) : list Z := nonzero_from 0 a.

(** [metadata[name]] on the record array. *)
Fixpoint field (md : list (string * list scalar)) (name : string)
  : result (list scalar) :=
  match md with
  | [] => Err (ValueError ("no field of name " +:+ name))
  | (k, c) :: md' => if bool_decide (k = name) then Ok c else field md' name
  end.

(** [FibLandGrid.__init__] *)
Definition FibLandGrid_init (res : Q) (geodatum sort_order : string)
  : io grid_object :=
  n ← lift (resolution_n res);
  f ← read_grid_file n geodatum sort_order;
  flag ← lift (field (gf_metadata f) "land_flag");
  let subset := nonzero flag in
  b ← lift (CellGrid_init (gf_lon f) (gf_lat f) (gf_cell f) (gf_gpi f)
              (Some subset) geodatum);
  mret (GridObject res (gf_metadata f) b).

End Realization.

(** ** Definitions used to state the properties *)

Module Props.
Import PyArr Construction.

(** The slot Python indexing gives to the signed index [i] in an array of
    [2n+1] elements. *)
Definition slot_of (n i : Z) : Z :=
  if bool_decide (0 ≤ i)%Z then i else (2 * n + 1 + i)%Z.

(** The signed index whose slot is [p], in an array of [2n+1] elements. *)
Definition signed_at (n p : Z) : Z :=
  if bool_decide (p ≤ n)%Z then p else (p - (2 * n + 1))%Z.

(** The two wrap tests of the loop, applied to a raw longitude. *)
Definition wrap_lon (x : R) : R :=
  let x1 := if Rlt_dec x (-180) then (x + 360)%R else x in
  if Rlt_dec 180 x1 then (x1 - 360)%R else x1.

(** The loop body without the test [lon[i] < -180]. *)
Definition fib_body_upper_only (n : Z) (st : grid_arrays) (i : Z)
  : result grid_arrays :=
  lat ← setitem (lat_arr st) i (Some (lat_formula n i));
  lon ← setitem (lon_arr st) i (Some (lon_formula i));
  x ← getcell lon i;
  lon ← (if Rlt_dec 180 x
         then y ← getcell lon i; setitem lon i (Some (y - 360)%R)
         else Ok lon);
  Ok (GridArrays lat lon).

(** [r] is [a] indexed by the index array [zs]: [r[k] = a[zs[k]]]. *)
Definition gathered {A} (a : list A) (zs : list Z) (r : list A) : Prop :=
  Forall2 (λ x z, a !! Z.to_nat z = Some x) r zs.

(** What [read_grid_file] makes of an opened dataset. *)
Definition parse_dataset (fp : Realization.dataset) (sort_order : string)
  : result Realization.grid_file :=
  v ← Realization.read_variables fp sort_order;
  let '(lon, lat, cell, gpi, metadata_list) := v in
  metadata ← Realization.fromarrays metadata_list Realization.metadata_fields;
  Ok (Realization.GridFile lon lat cell gpi metadata).

(** The rest of [FibGrid.__init__] once [n] is chosen. *)
Definition FibGrid_load (n : Z) (res : Q) (geodatum sort_order : string)
  : Realization.io Realization.grid_object :=
  f ← Realization.read_grid_file n geodatum sort_order;
  b ← Realization.lift
        (Realization.CellGrid_init (Realization.gf_lon f)
           (Realization.gf_lat f) (Realization.gf_cell f)
           (Realization.gf_gpi f) None geodatum);
  mret (Realization.GridObject res (Realization.gf_metadata f) b).

(** The rest of [FibLandGrid.__init__] once [n] is chosen. *)
Definition FibLandGrid_load (n : Z) (res : Q) (geodatum sort_order : string)
  : Realization.io Realization.grid_object :=
  f ← Realization.read_grid_file n geodatum sort_order;
  flag ← Realization.lift
           (Realization.field (Realization.gf_metadata f) "land_flag");
  let subset := Realization.nonzero flag in
  b ← Realization.lift
        (Realization.CellGrid_init (Realization.gf_lon f)
           (Realization.gf_lat f) (Realization.gf_cell f)
           (Realization.gf_gpi f) (Some subset) geodatum);
  mret (Realization.GridObject res (Realization.gf_metadata f) b).

End Props.

(** ** Sample artifacts *)

Module Samples.
Import Realization.

(** A three-point artifact with a latitude-band sorting. *)
Definition small_dataset : dataset :=
  list_to_map [
    ("lon", [SFloat 10; SFloat 20; SFloat (-30)]);
    ("lat", [SFloat 0; SFloat 41; SFloat (-41)]);
    ("cell", [SInt 7; SInt 7; SInt 8]);
    ("gpi", [SInt 0; SInt 1; SInt 2]);
    ("land_frac_fw", [SFloat 1; SFloat 0; SFloat (1 # 2)]);
    ("land_frac_hw", [SFloat 1; SFloat 0; SFloat (1 # 2)]);
    ("land_mask_hw", [SInt 1; SInt 0; SInt 1]);
    ("land_mask_fw", [SInt 1; SInt 0; SInt 1]);
    ("land_flag", [SInt 1; SInt 0; SInt 1]);
    ("latband_sorting", [SInt 2; SInt 0; SInt 1])
  ].

Definition url_wgs84_n430000 : string :=
  "https://github.com/TUW-GEO/fibgrid/releases/download/v0.0.8/fibgrid_wgs84_n430000.nc".

Definition url_sphere_n430000 : string :=
  "https://github.com/TUW-GEO/fibgrid/releases/download/v0.0.8/fibgrid_sphere_n430000.nc".

(** The artifact is in the cache. *)
Definition cached_world : world :=
  World {[ "fibgrid_wgs84_n430000.nc" := small_dataset ]} ∅ [].

(** Nothing is cached yet; the remote store serves the artifacts. *)
Definition fresh_world : world :=
  World ∅ {[ url_wgs84_n430000 := small_dataset;
             url_sphere_n430000 := small_dataset ]} [].

End Samples.

(** ** Further definitions used to state properties *)

Module More.
Import Construction.

(** The directory of the release the URL table points into. *)
Definition release_prefix : string :=
  "https://github.com/TUW-GEO/fibgrid/releases/download/v0.0.8/".

(** The three effects of a first-use fetch, in order. *)
Definition fetch_events (url name : string) : list Realization.event :=
  [Realization.Warn
     "You are about to download the fibonacci grid file: {filename.name}";
   Realization.Mkdir;
   Realization.UrlRetrieve url name].

(** The sample artifact without its sorting array, in the cache as the
    sphere grid. *)
Definition unsorted_dataset : Realization.dataset :=
  delete "latband_sorting" Samples.small_dataset.

Definition unsorted_world : Realization.world :=
  Realization.World {[ "fibgrid_sphere_n430000.nc" := unsorted_dataset ]} ∅ [].


(** The sample artifact with a sorting array that points past the end. *)
Definition bad_sorting_dataset : Realization.dataset :=
  <["latband_sorting" :=
      [Realization.SInt 2; Realization.SInt 3; Realization.SInt 0]]>
    Samples.small_dataset.

Definition bad_sorting_world : Realization.world :=
  Realization.World
    {[ "fibgrid_wgs84_n430000.nc" := bad_sorting_dataset ]} ∅ [].

End More.

(** * Properties *)

(** ** Python indexing *)

Section PyArrFacts.
Import PyArr.

Lemma py_index_nonneg (len : nat) (i : Z) :
  (0 ≤ i < Z.of_nat len)%Z → py_index len i = Some (Z.to_nat i).
Proof.
  intros H. unfold py_index. by rewrite bool_decide_eq_true_2.
Qed.

Lemma py_index_neg (len : nat) (i : Z) :
  (- Z.of_nat len ≤ i < 0)%Z →
  py_index len i = Some (Z.to_nat (Z.of_nat len + i)).
Proof.
  intros H. unfold py_index.
  rewrite bool_decide_eq_false_2 by lia.
  by rewrite bool_decide_eq_true_2.
Qed.

Lemma py_index_lt (len : nat) (i : Z) (k : nat) :
  py_index len i = Some k → (k < len)%nat.
Proof.
  unfold py_index. repeat case_bool_decide; intros [= <-]; lia.
Qed.

Lemma setitem_ok {A} (a : list A) (i : Z) (v : A) (k : nat) :
  py_index (length a) i = Some k → setitem a i v = Ok (<[k := v]> a).
Proof. intros H. unfold setitem. by rewrite H. Qed.

Lemma getitem_ok {A} (a : list A) (i : Z) (k : nat) (x : A) :
  py_index (length a) i = Some k → a !! k = Some x → getitem a i = Ok x.
Proof. intros H Hx. unfold getitem. rewrite H. simpl. by rewrite Hx. Qed.

Lemma getcell_insert {A} (a : list (option A)) (i : Z) (k : nat) (v : A) :
  py_index (length a) i = Some k → getcell (<[k := Some v]> a) i = Ok v.
Proof.
  intros H. unfold getcell.
  rewrite (getitem_ok _ i k (Some v)); [done | by rewrite length_insert |].
  apply list_lookup_insert_eq. by eapply py_index_lt.
Qed.

Lemma setitem_err {A} (a : list A) (i : Z) (v : A) :
  py_index (length a) i = None → setitem a i v = Err IndexError.
Proof. intros H. unfold setitem. by rewrite H. Qed.

End PyArrFacts.

(** ** The lattice formulas *)

Section FormulaFacts.
Import Construction Props.
Local Open Scope R_scope.

Lemma phi_pos : 0 < phi.
Proof.
  unfold phi. pose proof (sqrt_pos 5). lra.
Qed.

Lemma np_mod_range (x y : R) : 0 < y → 0 <= np_mod x y < y.
Proof.
  intros Hy. unfold np_mod.
  destruct (base_Int_part (x / y)) as [Hlo Hhi].
  set (k := IZR (Int_part (x / y))) in *.
  assert (Hx : x = x / y * y) by (field; lra).
  set (q := x / y) in *.
  rewrite Hx. split; nra.
Qed.

Lemma lon_formula_range (i : Z) : 0 <= lon_formula i < 360.
Proof.
  unfold lon_formula.
  pose proof phi_pos as Hphi.
  destruct (np_mod_range (IZR i) phi Hphi) as [Hlo Hhi].
  set (m := np_mod (IZR i) phi) in *.
  assert (Hm : m * 360 / phi = m / phi * 360) by (field; lra).
  rewrite Hm.
  assert (0 <= m / phi < 1).
  { split.
    - apply Rmult_le_pos; [lra|]. left. by apply Rinv_0_lt_compat.
    - apply (Rmult_lt_reg_r phi); [lra|]. field_simplify; lra. }
  lra.
Qed.

Lemma lon_formula_not_low (i : Z) : ¬ lon_formula i < -180.
Proof. pose proof (lon_formula_range i). lra. Qed.

Lemma wrap_lon_range (x : R) : 0 <= x < 360 → -180 < wrap_lon x <= 180.
Proof.
  intros Hx. unfold wrap_lon.
  destruct (Rlt_dec x (-180)); [lra|].
  destruct (Rlt_dec 180 x); lra.
Qed.

Lemma lat_formula_range (n i : Z) : -90 <= lat_formula n i <= 90.
Proof.
  unfold lat_formula.
  pose proof PI_RGT_0 as Hpi.
  destruct (asin_bound (IZR (2 * i) / IZR (2 * n + 1))) as [Hlo Hhi].
  set (a := asin _) in *.
  assert (Ha : a * 180 / PI = a / PI * 180) by (field; lra).
  rewrite Ha.
  assert (- (1 / 2) <= a / PI <= 1 / 2).
  { split.
    - apply (Rmult_le_reg_r PI); [lra|]. field_simplify; lra.
    - apply (Rmult_le_reg_r PI); [lra|]. field_simplify; lra. }
  lra.
Qed.

End FormulaFacts.

(** ** The fill loop of [compute_fib_grid] *)

Section FillLoop.
Import PyArr Construction Props.

Lemma fib_body_ok (n : Z) (st : grid_arrays) (i : Z) (k : nat) :
  py_index (length (lat_arr st)) i = Some k →
  length (lon_arr st) = length (lat_arr st) →
  fib_body n st i =
    Ok (GridArrays (<[k := Some (lat_formula n i)]> (lat_arr st))
                   (<[k := Some (wrap_lon (lon_formula i))]> (lon_arr st))).
Proof.
  intros Hk Hlen. unfold fib_body.
  rewrite (setitem_ok _ _ _ k Hk). cbn.
  assert (Hk' : py_index (length (lon_arr st)) i = Some k) by (by rewrite Hlen).
  rewrite (setitem_ok _ _ _ k Hk'). cbn.
  rewrite (getcell_insert _ _ _ _ Hk'). cbn.
  unfold wrap_lon.
  destruct (Rlt_dec (lon_formula i) (-180)) as [Hlow|Hlow]; cbn.
  - rewrite (setitem_ok _ _ _ k) by (by rewrite length_insert). cbn.
    rewrite list_insert_insert_eq.
    rewrite (getcell_insert _ _ _ _ Hk'). cbn.
    destruct (Rlt_dec 180 (lon_formula i + 360)); [|reflexivity]. cbn.
    rewrite (setitem_ok _ _ _ k) by (by rewrite length_insert). cbn.
    by rewrite list_insert_insert_eq.
  - rewrite (getcell_insert _ _ _ _ Hk'). cbn.
    destruct (Rlt_dec 180 (lon_formula i)); [|reflexivity]. cbn.
    rewrite (setitem_ok _ _ _ k) by (by rewrite length_insert). cbn.
    by rewrite list_insert_insert_eq.
Qed.

Lemma fib_body_low_branch_dead (n : Z) (st : grid_arrays) (i : Z) :
  fib_body n st i = fib_body_upper_only n st i.
Proof.
  unfold fib_body, fib_body_upper_only.
  destruct (setitem (lat_arr st) i (Some (lat_formula n i))) as [lat'|e];
    [cbn|reflexivity].
  destruct (py_index (length (lon_arr st)) i) as [k|] eqn:Hk.
  - rewrite (setitem_ok _ _ _ k Hk). cbn.
    rewrite (getcell_insert _ _ _ _ Hk). cbn.
    destruct (Rlt_dec (lon_formula i) (-180)) as [Hlow|Hlow].
    + by apply lon_formula_not_low in Hlow.
    + cbn. by rewrite (getcell_insert _ _ _ _ Hk).
  - by rewrite (setitem_err _ _ _ Hk).
Qed.

Lemma slot_of_range (n i : Z) :
  (0 ≤ n)%Z → (- n ≤ i ≤ n)%Z → (0 ≤ slot_of n i ≤ 2 * n)%Z.
Proof. intros Hn Hi. unfold slot_of. case_bool_decide; lia. Qed.

Lemma slot_of_inj (n i j : Z) :
  (0 ≤ n)%Z → (- n ≤ i ≤ n)%Z → (- n ≤ j ≤ n)%Z →
  slot_of n i = slot_of n j → i = j.
Proof. intros Hn Hi Hj. unfold slot_of. repeat case_bool_decide; lia. Qed.

Lemma py_index_slot_of (n i : Z) :
  (0 ≤ n)%Z → (- n ≤ i ≤ n)%Z →
  py_index (Z.to_nat (2 * n + 1)) i = Some (Z.to_nat (slot_of n i)).
Proof.
  intros Hn Hi. unfold slot_of. case_bool_decide.
  - apply py_index_nonneg. lia.
  - rewrite py_index_neg by lia. f_equal. lia.
Qed.

(** After the loop has run over [l], the slot of every [i] of [l] holds the
    values computed for [i], and the other slots are as before. *)
Lemma for_each_fib_body (n : Z) (l : list Z) :
  (0 ≤ n)%Z → Forall (λ i, - n ≤ i ≤ n)%Z l → NoDup l →
  ∀ st : grid_arrays,
    length (lat_arr st) = Z.to_nat (2 * n + 1) →
    length (lon_arr st) = Z.to_nat (2 * n + 1) →
    ∃ st', for_each (fib_body n) l st = Ok st'
      ∧ length (lat_arr st') = Z.to_nat (2 * n + 1)
      ∧ length (lon_arr st') = Z.to_nat (2 * n + 1)
      ∧ (∀ i, i ∈ l →
           lat_arr st' !! Z.to_nat (slot_of n i) = Some (Some (lat_formula n i))
           ∧ lon_arr st' !! Z.to_nat (slot_of n i)
               = Some (Some (wrap_lon (lon_formula i))))
      ∧ (∀ k : nat, (∀ i, i ∈ l → Z.to_nat (slot_of n i) ≠ k) →
           lat_arr st' !! k = lat_arr st !! k
           ∧ lon_arr st' !! k = lon_arr st !! k).
Proof.
  intros Hn Hrange Hnd.
  induction l as [|i l IH]; intros st Hlat Hlon.
  - exists st. cbn. split; [done|]. split; [done|]. split; [done|]. split.
    + intros j Hj. by apply elem_of_nil in Hj.
    + done.
  - apply Forall_cons in Hrange as [Hi Hrange].
    apply NoDup_cons in Hnd as [Hnotin Hnd].
    pose proof (py_index_slot_of n i Hn Hi) as Hk.
    pose proof (slot_of_range n i Hn Hi) as Hsr.
    set (k := Z.to_nat (slot_of n i)) in *.
    cbn. rewrite (fib_body_ok n st i k); [|by rewrite Hlat|congruence].
    cbn.
    destruct (IH Hrange Hnd
      (GridArrays (<[k := Some (lat_formula n i)]> (lat_arr st))
                  (<[k := Some (wrap_lon (lon_formula i))]> (lon_arr st))))
      as (st' & Hrun & Hlat' & Hlon' & Hin & Hout);
      [cbn; by rewrite length_insert|cbn; by rewrite length_insert|].
    exists st'. split; [exact Hrun|]. split; [done|]. split; [done|].
    cbn in Hout. split.
    + intros j Hj. apply elem_of_cons in Hj as [->|Hj]; [|by apply Hin].
      destruct (Hout k) as [Ha Hb].
      { intros j Hj Heq. apply Hnotin.
        rewrite Forall_forall in Hrange. pose proof (Hrange j Hj) as Hjr.
        pose proof (slot_of_range n j Hn Hjr).
        assert (slot_of n j = slot_of n i) by (subst k; lia).
        by rewrite <- (slot_of_inj n j i Hn Hjr Hi). }
      fold k. rewrite Ha, Hb. split; apply list_lookup_insert_eq; subst k; lia.
    + intros k' Hk'.
      destruct (Hout k') as [Ha Hb].
      { intros j Hj. apply Hk'. by apply elem_of_cons; right. }
      assert (k ≠ k') by (apply Hk'; by apply elem_of_cons; left).
      rewrite Ha, Hb. split; by apply list_lookup_insert_ne.
Qed.

(** What [compute_fib_grid] returns for a non-negative [n]: the index
    arrays, and for each signed index the slot that holds its values. *)
Lemma compute_fib_grid_layout (n : Z) :
  (0 ≤ n)%Z →
  ∃ g, compute_fib_grid n = Ok g
    ∧ points g = seqZ (- n) (2 * n + 1)
    ∧ gpi g = seqZ 0 (2 * n + 1)
    ∧ length (lat g) = Z.to_nat (2 * n + 1)
    ∧ length (lon g) = Z.to_nat (2 * n + 1)
    ∧ (∀ i, (- n ≤ i ≤ n)%Z →
         lat g !! Z.to_nat (slot_of n i) = Some (Some (lat_formula n i))
         ∧ lon g !! Z.to_nat (slot_of n i)
             = Some (Some (wrap_lon (lon_formula i)))).
Proof.
  intros Hn. unfold compute_fib_grid, arange, empty.
  replace (n + 1 - - n)%Z with (2 * n + 1)%Z by lia.
  rewrite length_seqZ.
  destruct (for_each_fib_body n (seqZ (- n) (2 * n + 1)) Hn) with
    (st := GridArrays (replicate (Z.to_nat (2 * n + 1)) None)
                      (replicate (Z.to_nat (2 * n + 1)) None))
    as (st' & Hrun & Hlat & Hlon & Hin & _).
  - apply Forall_forall. intros i Hi. apply elem_of_seqZ in Hi. lia.
  - apply NoDup_seqZ.
  - cbn. apply length_replicate.
  - cbn. apply length_replicate.
  - rewrite Hrun. cbn. eexists. split; [reflexivity|]. cbn.
    split; [done|]. split; [f_equal; lia|]. split; [done|]. split; [done|].
    intros i Hi. apply Hin. apply elem_of_seqZ. lia.
Qed.

(** For a negative [n] there is nothing to fill. *)
Lemma compute_fib_grid_negative (n : Z) :
  (n < 0)%Z → compute_fib_grid n = Ok (FibGridTuple [] [] [] []).
Proof.
  intros Hn. unfold compute_fib_grid, arange, empty, seqZ.
  replace (Z.to_nat (n + 1 - - n)) with 0%nat by lia. reflexivity.
Qed.

End FillLoop.

(** ** compute_fib_grid *)

Section LatticeClaims.
Import PyArr Construction Props.

Lemma slot_of_signed_at (n p : Z) :
  (0 ≤ n)%Z → (0 ≤ p ≤ 2 * n)%Z →
  (- n ≤ signed_at n p ≤ n)%Z ∧ slot_of n (signed_at n p) = p.
Proof.
  intros Hn Hp. unfold slot_of, signed_at. repeat case_bool_decide; lia.
Qed.

(** Every slot holds the values of the signed index [signed_at n p]. *)
Lemma compute_fib_grid_slots (n : Z) :
  (0 ≤ n)%Z →
  ∃ g, compute_fib_grid n = Ok g
    ∧ points g = seqZ (- n) (2 * n + 1)
    ∧ gpi g = seqZ 0 (2 * n + 1)
    ∧ length (lat g) = Z.to_nat (2 * n + 1)
    ∧ length (lon g) = Z.to_nat (2 * n + 1)
    ∧ (∀ p, (0 ≤ p ≤ 2 * n)%Z →
         lat g !! Z.to_nat p = Some (Some (lat_formula n (signed_at n p)))
         ∧ lon g !! Z.to_nat p
             = Some (Some (wrap_lon (lon_formula (signed_at n p))))).
Proof.
  intros Hn.
  destruct (compute_fib_grid_layout n Hn)
    as (g & Hrun & Hpts & Hgpi & Hlat & Hlon & Hval).
  exists g. do 5 (split; [done|]).
  intros p Hp.
  destruct (slot_of_signed_at n p Hn Hp) as [Hr Hs].
  specialize (Hval _ Hr). by rewrite Hs in Hval.
Qed.

Lemma list_of_three {A} (l : list A) (a b c : A) :
  length l = 3%nat → l !! 0%nat = Some a → l !! 1%nat = Some b →
  l !! 2%nat = Some c → l = [a; b; c].
Proof.
  destruct l as [|x [|y [|z [|? ?]]]]; cbn; try discriminate.
  by intros _ [= ->] [= ->] [= ->].
Qed.

Lemma asin_negative (x : R) : (-1 <= x < 0)%R → (asin x < 0)%R.
Proof.
  intros Hx.
  destruct (Rlt_dec (asin x) 0) as [|Hge]; [done|exfalso].
  destruct (asin_bound x) as [_ Hhi].
  pose proof PI_RGT_0.
  assert (Hs : (0 <= sin (asin x))%R) by (apply sin_ge_0; lra).
  rewrite sin_asin in Hs by lra. lra.
Qed.

Lemma scale_to_degrees_sign (a : R) : (a < 0)%R → (a * 180 / PI < 0)%R.
Proof.
  intros Ha. pose proof (Rinv_0_lt_compat PI PI_RGT_0). unfold Rdiv. nra.
Qed.

(** C1 (the code departs from the claim). At [n = 1] the loop stores the
    values of signed index [i] in slot [i] counted Python-wise, so the
    returned latitude array is [lat(0); lat(1); lat(-1)]: the point with
    grid point index 0 and signed index -1 carries latitude 0, the
    latitude of signed index 0, while the claimed value
    [arcsin(-2/3) * 180 / pi] is negative and sits at grid point index 2,
    next to signed index 1. *)
Theorem C1_values_stored_by_python_slot :
  ∃ g, compute_fib_grid 1 = Ok g
    ∧ points g = [-1; 0; 1]%Z
    ∧ gpi g = [0; 1; 2]%Z
    ∧ lat g = [Some (lat_formula 1 0); Some (lat_formula 1 1);
               Some (lat_formula 1 (-1))]
    ∧ lon g = [Some (wrap_lon (lon_formula 0));
               Some (wrap_lon (lon_formula 1));
               Some (wrap_lon (lon_formula (-1)))]
    ∧ lat_formula 1 0 = 0%R
    ∧ (lat_formula 1 (-1) < 0)%R
    ∧ lat g !! 0%nat ≠ Some (Some (lat_formula 1 (-1))).
Proof.
  destruct (compute_fib_grid_slots 1) as
    (g & Hrun & Hpts & Hgpi & Hlat & Hlon & Hval); [lia|].
  assert (H0 : lat_formula 1 0 = 0%R).
  { unfold lat_formula. change (2 * 0)%Z with 0%Z.
    change (2 * 1 + 1)%Z with 3%Z. replace (0 / 3)%R with 0%R by lra.
    rewrite asin_0. unfold Rdiv. lra. }
  assert (Hm : (lat_formula 1 (-1) < 0)%R).
  { unfold lat_formula. change (2 * -1)%Z with (-2)%Z.
    change (2 * 1 + 1)%Z with 3%Z.
    apply scale_to_degrees_sign, asin_negative. lra. }
  destruct (Hval 0%Z) as [Ha0 Ho0]; [lia|].
  destruct (Hval 1%Z) as [Ha1 Ho1]; [lia|].
  destruct (Hval 2%Z) as [Ha2 Ho2]; [lia|].
  assert (Hl : lat g = [Some (lat_formula 1 0); Some (lat_formula 1 1);
                        Some (lat_formula 1 (-1))])
    by (by apply list_of_three).
  exists g. split; [done|]. split; [done|]. split; [done|].
  split; [done|]. split; [by apply list_of_three|].
  split; [done|]. split; [done|].
  rewrite Hl. cbn. intros [= Heq]. lra.
Qed.

(** C2. For every [n > 0] whose [2n+1] is an int64 value,
    [compute_fib_grid n] returns four arrays of [2n+1] elements; [points]
    is [-n, ..., n] in increasing order, [gpi] is [0, ..., 2n] in order,
    and at every position [gpi = points + n]. *)
Theorem C2_points_and_gpi_dense (n : Z) :
  (0 < n)%Z →
  (2 * n + 1 < 2 ^ 63)%Z →
  ∃ g, compute_fib_grid n = Ok g
    ∧ length (points g) = Z.to_nat (2 * n + 1)
    ∧ length (gpi g) = Z.to_nat (2 * n + 1)
    ∧ length (lon g) = Z.to_nat (2 * n + 1)
    ∧ length (lat g) = Z.to_nat (2 * n + 1)
    ∧ points g = seqZ (- n) (2 * n + 1)
    ∧ gpi g = seqZ 0 (2 * n + 1)
    ∧ (∀ k : nat, (k < Z.to_nat (2 * n + 1))%nat →
         points g !! k = Some (Z.of_nat k - n)%Z
         ∧ gpi g !! k = Some (Z.of_nat k))
    ∧ (∀ (k : nat) (p : Z), points g !! k = Some p →
         gpi g !! k = Some (p + n)%Z).
Proof.
  intros Hn _.
  destruct (compute_fib_grid_layout n) as
    (g & Hrun & Hpts & Hgpi & Hlat & Hlon & _); [lia|].
  exists g. split; [done|].
  rewrite Hpts, Hgpi, !length_seqZ.
  do 6 (split; [done|]). split.
  - intros k Hk. rewrite !lookup_seqZ_lt by lia. split; f_equal; lia.
  - intros k p Hp. apply lookup_seqZ in Hp as [-> Hk].
    rewrite lookup_seqZ_lt by lia. f_equal; lia.
Qed.

Lemma C2_points_and_gpi_dense_witness :
  (0 < 1)%Z ∧ (2 * 1 + 1 < 2 ^ 63)%Z ∧
  ∃ g, compute_fib_grid 1 = Ok g
    ∧ length (points g) = Z.to_nat (2 * 1 + 1)
    ∧ length (gpi g) = Z.to_nat (2 * 1 + 1)
    ∧ length (lon g) = Z.to_nat (2 * 1 + 1)
    ∧ length (lat g) = Z.to_nat (2 * 1 + 1)
    ∧ points g = seqZ (- 1) (2 * 1 + 1)
    ∧ gpi g = seqZ 0 (2 * 1 + 1)
    ∧ (∀ k : nat, (k < Z.to_nat (2 * 1 + 1))%nat →
         points g !! k = Some (Z.of_nat k - 1)%Z
         ∧ gpi g !! k = Some (Z.of_nat k))
    ∧ (∀ (k : nat) (p : Z), points g !! k = Some p →
         gpi g !! k = Some (p + 1)%Z).
Proof.
  split; [lia|]. split; [reflexivity|].
  apply (C2_points_and_gpi_dense 1); [lia|reflexivity].
Defined.

(** C3. For every [n > 0] every returned latitude lies in [[-90, 90]] and
    every returned longitude in [(-180, 180]]; the raw longitude
    [np.mod(i, phi) * 360 / phi] lies in [[0, 360)] for every integer [i],
    negative ones included, so the test [lon[i] < -180] never succeeds:
    the loop body equals the body without it. *)
Theorem C3_coordinates_in_range (n : Z) :
  (0 < n)%Z →
  ∃ g, compute_fib_grid n = Ok g
    ∧ (∀ (k : nat) (c : option R), lat g !! k = Some c →
         ∃ v, c = Some v ∧ (-90 <= v <= 90)%R)
    ∧ (∀ (k : nat) (c : option R), lon g !! k = Some c →
         ∃ v, c = Some v ∧ (-180 < v <= 180)%R)
    ∧ (∀ i : Z, (0 <= lon_formula i < 360)%R)
    ∧ (∀ i : Z, ¬ (lon_formula i < -180)%R)
    ∧ (∀ (st : grid_arrays) (i : Z),
         fib_body n st i = fib_body_upper_only n st i).
Proof.
  intros Hn.
  destruct (compute_fib_grid_slots n) as
    (g & Hrun & _ & _ & Hlat & Hlon & Hval); [lia|].
  exists g. split; [done|]. split; [|split; [|split; [|split]]].
  - intros k c Hk.
    apply lookup_lt_Some in Hk as Hlt. rewrite Hlat in Hlt.
    destruct (Hval (Z.of_nat k)) as [Ha _]; [lia|].
    rewrite Nat2Z.id, Hk in Ha. injection Ha as ->.
    eexists. split; [done|]. apply lat_formula_range.
  - intros k c Hk.
    apply lookup_lt_Some in Hk as Hlt. rewrite Hlon in Hlt.
    destruct (Hval (Z.of_nat k)) as [_ Ho]; [lia|].
    rewrite Nat2Z.id, Hk in Ho. injection Ho as ->.
    eexists. split; [done|]. apply wrap_lon_range, lon_formula_range.
  - apply lon_formula_range.
  - apply lon_formula_not_low.
  - apply fib_body_low_branch_dead.
Qed.

Lemma C3_coordinates_in_range_witness :
  (0 < 2)%Z ∧
  ∃ g, compute_fib_grid 2 = Ok g
    ∧ (∀ (k : nat) (c : option R), lat g !! k = Some c →
         ∃ v, c = Some v ∧ (-90 <= v <= 90)%R)
    ∧ (∀ (k : nat) (c : option R), lon g !! k = Some c →
         ∃ v, c = Some v ∧ (-180 < v <= 180)%R)
    ∧ (∀ i : Z, (0 <= lon_formula i < 360)%R)
    ∧ (∀ i : Z, ¬ (lon_formula i < -180)%R)
    ∧ (∀ (st : grid_arrays) (i : Z),
         fib_body 2 st i = fib_body_upper_only 2 st i).
Proof.
  split; [lia|]. apply (C3_coordinates_in_range 2). lia.
Defined.

Lemma slots_visited_once (n : Z) :
  (0 ≤ n)%Z →
  slot_of n <$> arange (- n) (n + 1) ≡ₚ seqZ 0 (2 * n + 1).
Proof.
  intros Hn. unfold arange.
  apply NoDup_Permutation.
  - apply NoDup_fmap_2_strong; [|apply NoDup_seqZ].
    intros i j Hi Hj. apply elem_of_seqZ in Hi, Hj.
    apply slot_of_inj; lia.
  - apply NoDup_seqZ.
  - intros k. rewrite list_elem_of_fmap, elem_of_seqZ. split.
    + intros (i & -> & Hi). apply elem_of_seqZ in Hi.
      pose proof (slot_of_range n i). lia.
    + intros Hk. exists (signed_at n k).
      destruct (slot_of_signed_at n k) as [Hr Hs]; [lia..|].
      split; [done|]. apply elem_of_seqZ. lia.
Qed.

(** C4. For every [n >= 1] whose [2n+1] is an int64 value the loop
    variable runs over [-n..n]; the slot Python indexing gives to [i] in
    an array of [2n+1] elements is [i] for [i >= 0] and [2n+1+i]
    otherwise, it is in bounds, and the map is a bijection from
    [[-n, n]] onto [[0, 2n]]: the slots visited by the loop are a
    permutation of [0..2n].  An iteration stores the values computed for
    [i] in its own slot of [lat] and [lon] and changes no other slot; the
    loop ends without an index error, the value stored for each [i] is
    still in its slot at the end, and no cell of the two [np.empty]
    arrays is left unwritten. *)
Theorem C4_fill_loop_covers_every_slot (n : Z) :
  (1 ≤ n)%Z →
  (2 * n + 1 < 2 ^ 63)%Z →
  arange (- n) (n + 1) = seqZ (- n) (2 * n + 1)
  ∧ (∀ i, (- n ≤ i ≤ n)%Z →
       py_index (Z.to_nat (2 * n + 1)) i = Some (Z.to_nat (slot_of n i))
       ∧ (0 ≤ slot_of n i ≤ 2 * n)%Z)
  ∧ (∀ i j, (- n ≤ i ≤ n)%Z → (- n ≤ j ≤ n)%Z →
       slot_of n i = slot_of n j → i = j)
  ∧ (∀ p, (0 ≤ p ≤ 2 * n)%Z → ∃ i, (- n ≤ i ≤ n)%Z ∧ slot_of n i = p)
  ∧ slot_of n <$> arange (- n) (n + 1) ≡ₚ seqZ 0 (2 * n + 1)
  ∧ (∀ (st : grid_arrays) (i : Z) (k : nat),
       py_index (length (lat_arr st)) i = Some k →
       length (lon_arr st) = length (lat_arr st) →
       ∃ st', fib_body n st i = Ok st'
         ∧ lat_arr st' = <[k := Some (lat_formula n i)]> (lat_arr st)
         ∧ lon_arr st' = <[k := Some (wrap_lon (lon_formula i))]> (lon_arr st)
         ∧ lat_arr st' !! k = Some (Some (lat_formula n i))
         ∧ lon_arr st' !! k = Some (Some (wrap_lon (lon_formula i)))
         ∧ ∀ k' : nat, k' ≠ k →
             lat_arr st' !! k' = lat_arr st !! k'
             ∧ lon_arr st' !! k' = lon_arr st !! k')
  ∧ ∃ g, compute_fib_grid n = Ok g
      ∧ length (lat g) = Z.to_nat (2 * n + 1)
      ∧ length (lon g) = Z.to_nat (2 * n + 1)
      ∧ (∀ i, (- n ≤ i ≤ n)%Z →
           lat g !! Z.to_nat (slot_of n i) = Some (Some (lat_formula n i))
           ∧ lon g !! Z.to_nat (slot_of n i)
               = Some (Some (wrap_lon (lon_formula i))))
      ∧ ∀ k : nat, (k < Z.to_nat (2 * n + 1))%nat →
          ∃ v w : R, lat g !! k = Some (Some v) ∧ lon g !! k = Some (Some w).
Proof.
  intros Hn _. split; [|split; [|split; [|split; [|split; [|split]]]]].
  - unfold arange. f_equal. lia.
  - intros i Hi. split; [apply py_index_slot_of|apply slot_of_range]; lia.
  - intros i j Hi Hj. apply slot_of_inj; lia.
  - intros p Hp. exists (signed_at n p). apply slot_of_signed_at; lia.
  - apply slots_visited_once. lia.
  - intros st i k Hk Hlen.
    rewrite (fib_body_ok n st i k Hk Hlen). eexists. split; [done|]. cbn.
    pose proof (py_index_lt _ _ _ Hk) as Hlt.
    split; [done|]. split; [done|]. split; [|split].
    + by rewrite list_lookup_insert_eq by done.
    + by rewrite list_lookup_insert_eq by lia.
    + intros k' Hne. split; by apply list_lookup_insert_ne.
  - destruct (compute_fib_grid_layout n) as
      (g & Hrun & _ & _ & Hlat & Hlon & Hval); [lia|].
    exists g. do 3 (split; [done|]). split; [exact Hval|].
    intros k Hk.
    destruct (slot_of_signed_at n (Z.of_nat k)) as [Hr Hs]; [lia..|].
    destruct (Hval _ Hr) as [Ha Ho].
    rewrite Hs, Nat2Z.id in Ha, Ho. eauto.
Qed.

Lemma C4_fill_loop_covers_every_slot_witness :
  (1 ≤ 1)%Z ∧ (2 * 1 + 1 < 2 ^ 63)%Z ∧
  (arange (- 1) (1 + 1) = seqZ (- 1) (2 * 1 + 1)
  ∧ (∀ i, (- 1 ≤ i ≤ 1)%Z →
       py_index (Z.to_nat (2 * 1 + 1)) i = Some (Z.to_nat (slot_of 1 i))
       ∧ (0 ≤ slot_of 1 i ≤ 2 * 1)%Z)
  ∧ (∀ i j, (- 1 ≤ i ≤ 1)%Z → (- 1 ≤ j ≤ 1)%Z →
       slot_of 1 i = slot_of 1 j → i = j)
  ∧ (∀ p, (0 ≤ p ≤ 2 * 1)%Z → ∃ i, (- 1 ≤ i ≤ 1)%Z ∧ slot_of 1 i = p)
  ∧ slot_of 1 <$> arange (- 1) (1 + 1) ≡ₚ seqZ 0 (2 * 1 + 1)
  ∧ (∀ (st : grid_arrays) (i : Z) (k : nat),
       py_index (length (lat_arr st)) i = Some k →
       length (lon_arr st) = length (lat_arr st) →
       ∃ st', fib_body 1 st i = Ok st'
         ∧ lat_arr st' = <[k := Some (lat_formula 1 i)]> (lat_arr st)
         ∧ lon_arr st' = <[k := Some (wrap_lon (lon_formula i))]> (lon_arr st)
         ∧ lat_arr st' !! k = Some (Some (lat_formula 1 i))
         ∧ lon_arr st' !! k = Some (Some (wrap_lon (lon_formula i)))
         ∧ ∀ k' : nat, k' ≠ k →
             lat_arr st' !! k' = lat_arr st !! k'
             ∧ lon_arr st' !! k' = lon_arr st !! k')
  ∧ ∃ g, compute_fib_grid 1 = Ok g
      ∧ length (lat g) = Z.to_nat (2 * 1 + 1)
      ∧ length (lon g) = Z.to_nat (2 * 1 + 1)
      ∧ (∀ i, (- 1 ≤ i ≤ 1)%Z →
           lat g !! Z.to_nat (slot_of 1 i) = Some (Some (lat_formula 1 i))
           ∧ lon g !! Z.to_nat (slot_of 1 i)
               = Some (Some (wrap_lon (lon_formula i))))
      ∧ ∀ k : nat, (k < Z.to_nat (2 * 1 + 1))%nat →
          ∃ v w : R, lat g !! k = Some (Some v) ∧ lon g !! k = Some (Some w)).
Proof.
  split; [lia|]. split; [reflexivity|].
  apply (C4_fill_loop_covers_every_slot 1); [lia|reflexivity].
Defined.

End LatticeClaims.

(** ** compute_fib_grid_wgs84 *)

Section ReprojectionClaims.
Import PyArr Construction Props.

(** The reprojection loop runs to its end when every cell it reads has
    been written, the transform succeeds, and the counter stays inside
    the output arrays. *)
Lemma wgs84_loop_ok (T : R → R → result (R * R))
    (cs : list (option R * option R)) :
  (∀ x y, ∃ r, T x y = Ok r) →
  Forall (λ c, is_Some c.1 ∧ is_Some c.2) cs →
  ∀ st : wgs84_state,
    (0 ≤ ws_i st)%Z →
    (Z.to_nat (ws_i st) + length cs ≤ length (ws_lat st))%nat →
    (Z.to_nat (ws_i st) + length cs ≤ length (ws_lon st))%nat →
    ∃ st', for_each (wgs84_body T) cs st = Ok st'
      ∧ length (ws_lat st') = length (ws_lat st)
      ∧ length (ws_lon st') = length (ws_lon st).
Proof.
  intros HT Hcs.
  induction Hcs as [|c cs [[x Hx] [y Hy]] _ IH]; intros st Hi Hlat Hlon.
  - by exists st.
  - destruct c as [a b]. cbn in Hx, Hy, Hlat, Hlon. subst a b.
    cbn. unfold wgs84_body at 1. cbn.
    destruct (HT x y) as [r ->]. cbn.
    rewrite (setitem_ok _ _ _ (Z.to_nat (ws_i st)))
      by (apply py_index_nonneg; lia). cbn.
    rewrite (setitem_ok _ _ _ (Z.to_nat (ws_i st)))
      by (apply py_index_nonneg; lia). cbn.
    match goal with |- ∃ _, for_each _ _ ?s = _ ∧ _ =>
      destruct (IH s) as (st' & Hrun & Ha & Hb) end.
    + cbn. lia.
    + cbn. rewrite length_insert. lia.
    + cbn. rewrite length_insert. lia.
    + exists st'. split; [done|]. cbn in Ha, Hb.
      rewrite length_insert in Ha, Hb. done.
Qed.

(** A value of [compute_fib_grid_wgs84] carries the index arrays of the
    sphere pass. *)
Lemma wgs84_keeps_indices (T : R → R → result (R * R)) (n : Z)
    (gw : wgs84_grid) :
  compute_fib_grid_wgs84 T n = Ok gw →
  ∃ g, compute_fib_grid n = Ok g
    ∧ w_points gw = points g ∧ w_gpi gw = gpi g.
Proof.
  unfold compute_fib_grid_wgs84.
  destruct (compute_fib_grid n) as [g|e]; [cbn|discriminate].
  destruct (for_each _ _ _) as [st|e]; [cbn|discriminate].
  intros [= <-]. by exists g.
Qed.

(** With a transform that succeeds, [compute_fib_grid_wgs84] returns for
    every integer [n]. *)
Lemma wgs84_returns (T : R → R → result (R * R)) (n : Z) :
  (∀ x y, ∃ r, T x y = Ok r) →
  ∃ gw, compute_fib_grid_wgs84 T n = Ok gw
    ∧ length (w_points gw) = Z.to_nat (2 * n + 1)
    ∧ length (w_gpi gw) = Z.to_nat (2 * n + 1)
    ∧ length (wgs84_lon gw) = Z.to_nat (2 * n + 1)
    ∧ length (wgs84_lat gw) = Z.to_nat (2 * n + 1).
Proof.
  intros HT. destruct (Z.lt_ge_cases n 0) as [Hneg|Hn].
  - unfold compute_fib_grid_wgs84.
    rewrite (compute_fib_grid_negative n Hneg). cbn.
    eexists. split; [done|]. cbn.
    replace (Z.to_nat (2 * n + 1)) with 0%nat by lia. done.
  - destruct (compute_fib_grid_slots n Hn) as
      (g & Hrun & Hpts & Hgpi & Hlat & Hlon & Hval).
    unfold compute_fib_grid_wgs84. rewrite Hrun. cbn.
    destruct (wgs84_loop_ok T (zip (lon g) (lat g)) HT) with
      (st := Wgs84State 0 (replicate (length (lon g)) 0%R)
                          (replicate (length (lat g)) 0%R))
      as (st' & Hloop & Ha & Hb).
    + apply Forall_forall. intros [a b] Hab.
      apply list_elem_of_lookup in Hab as [k Hk].
      apply lookup_zip_with_Some in Hk as (a' & b' & [= <- <-] & Ha & Hb).
      apply lookup_lt_Some in Ha as Hlt. rewrite Hlon in Hlt.
      destruct (Hval (Z.of_nat k)) as [Hv Hw]; [lia|].
      rewrite Nat2Z.id in Hv, Hw. rewrite Ha in Hw. rewrite Hb in Hv.
      injection Hv as ->. injection Hw as ->. cbn. eauto.
    + cbn. lia.
    + cbn. rewrite length_zip, length_replicate. lia.
    + cbn. rewrite length_zip, length_replicate. lia.
    + rewrite Hloop. cbn. eexists. split; [done|]. cbn.
      cbn in Ha, Hb. rewrite length_replicate in Ha, Hb.
      rewrite Hpts, Hgpi, !length_seqZ. split; [done|]. split; [done|].
      split; congruence.
Qed.

(** C5 (the claim fails). [compute_fib_grid_wgs84] has no check of [n]:
    at [n = 0], with a transform that succeeds, it returns one point and
    raises nothing; at [n = -1] it returns no points. *)
Lemma C5_returns_for_nonpositive_n :
  (0 ≤ 0)%Z ∧
  (∃ gw, compute_fib_grid_wgs84 (λ lon lat, Ok (lat, lon)) 0 = Ok gw
     ∧ w_points gw = [0%Z] ∧ w_gpi gw = [0%Z])
  ∧ (∀ e, compute_fib_grid_wgs84 (λ lon lat, Ok (lat, lon)) 0 ≠ Err e)
  ∧ compute_fib_grid_wgs84 (λ lon lat, Ok (lat, lon)) (-1)
      = Ok (Wgs84Tuple [] [] [] []).
Proof.
  split; [lia|].
  destruct (wgs84_returns (λ lon lat, Ok (lat, lon)) 0) as
    (gw & Hrun & _); [intros x y; by eexists|].
  destruct (wgs84_keeps_indices _ _ _ Hrun) as (g & Hg & Hp & Hi).
  destruct (compute_fib_grid_layout 0) as (g' & Hg' & Hp' & Hi' & _); [lia|].
  rewrite Hg in Hg'. injection Hg' as <-.
  split; [|split].
  - exists gw. split; [done|]. rewrite Hp, Hi, Hp', Hi'. done.
  - intros e. by rewrite Hrun.
  - unfold compute_fib_grid_wgs84.
    by rewrite (compute_fib_grid_negative (-1)) by lia.
Qed.

(** C5, amended. [compute_fib_grid_wgs84] has no check of [n] and raises
    no input error: when the external transform succeeds, it returns
    normally for every [n] for which [-n] and [2n+1] are int64 values
    ([-2^63 < n] and [2n+1 < 2^63]), with [2n+1] points for [n > 0], one
    point for [n = 0] and none for [n < 0]. *)
Theorem C5_wgs84_returns_for_every_n (T : R → R → result (R * R)) (n : Z) :
  (- 2 ^ 63 < n)%Z →
  (2 * n + 1 < 2 ^ 63)%Z →
  (∀ x y, ∃ r, T x y = Ok r) →
  ∃ gw, compute_fib_grid_wgs84 T n = Ok gw
    ∧ length (w_points gw) = Z.to_nat (2 * n + 1)
    ∧ length (w_gpi gw) = Z.to_nat (2 * n + 1)
    ∧ length (wgs84_lon gw) = Z.to_nat (2 * n + 1)
    ∧ length (wgs84_lat gw) = Z.to_nat (2 * n + 1)
    ∧ ((0 < n)%Z → Z.of_nat (length (w_points gw)) = (2 * n + 1)%Z)
    ∧ (n = 0%Z → length (w_points gw) = 1%nat)
    ∧ ((n < 0)%Z → gw = Wgs84Tuple [] [] [] []).
Proof.
  intros _ _ HT.
  destruct (wgs84_returns T n HT) as (gw & Hrun & Hp & Hg & Ho & Ha).
  exists gw. do 5 (split; [done|]). split; [|split].
  - intros Hn. rewrite Hp. lia.
  - intros ->. by rewrite Hp.
  - intros Hn. unfold compute_fib_grid_wgs84 in Hrun.
    rewrite (compute_fib_grid_negative n Hn) in Hrun. cbn in Hrun.
    by injection Hrun as <-.
Qed.

Lemma C5_wgs84_returns_for_every_n_witness :
  (- 2 ^ 63 < 3)%Z ∧ (2 * 3 + 1 < 2 ^ 63)%Z ∧
  (∀ x y : R, ∃ r, (λ lon lat, Ok (lat, lon)) x y = Ok r) ∧
  ∃ gw, compute_fib_grid_wgs84 (λ lon lat, Ok (lat, lon)) 3 = Ok gw
    ∧ length (w_points gw) = Z.to_nat (2 * 3 + 1)
    ∧ length (w_gpi gw) = Z.to_nat (2 * 3 + 1)
    ∧ length (wgs84_lon gw) = Z.to_nat (2 * 3 + 1)
    ∧ length (wgs84_lat gw) = Z.to_nat (2 * 3 + 1)
    ∧ ((0 < 3)%Z → Z.of_nat (length (w_points gw)) = (2 * 3 + 1)%Z)
    ∧ (3%Z = 0%Z → length (w_points gw) = 1%nat)
    ∧ ((3 < 0)%Z → gw = Wgs84Tuple [] [] [] []).
Proof.
  split; [reflexivity|]. split; [reflexivity|].
  split; [intros x y; by eexists|].
  apply (C5_wgs84_returns_for_every_n (λ lon lat, Ok (lat, lon)) 3);
    [reflexivity|reflexivity|].
  intros x y. by eexists.
Defined.

(** C10. For every [n > 0], a value of [compute_fib_grid_wgs84 n] has the
    [points] and [gpi] arrays of [compute_fib_grid n], element for element
    and in the same order; and when [2n+1] is an int64 value and the
    transform succeeds there is such a value, with [points] the integers
    [-n..n] and [gpi] the integers [0..2n]. *)
Theorem C10_wgs84_preserves_indices (T : R → R → result (R * R)) (n : Z) :
  (0 < n)%Z →
  (∀ gw, compute_fib_grid_wgs84 T n = Ok gw →
     ∃ g, compute_fib_grid n = Ok g
       ∧ w_points gw = points g ∧ w_gpi gw = gpi g)
  ∧ ((2 * n + 1 < 2 ^ 63)%Z → (∀ x y, ∃ r, T x y = Ok r) →
     ∃ gw g, compute_fib_grid_wgs84 T n = Ok gw
       ∧ compute_fib_grid n = Ok g
       ∧ w_points gw = points g ∧ w_gpi gw = gpi g
       ∧ w_points gw = seqZ (- n) (2 * n + 1)
       ∧ w_gpi gw = seqZ 0 (2 * n + 1)).
Proof.
  intros Hn. split.
  - intros gw Hrun. exact (wgs84_keeps_indices T n gw Hrun).
  - intros _ HT. destruct (wgs84_returns T n HT) as (gw & Hrun & _).
    destruct (wgs84_keeps_indices T n gw Hrun) as (g & Hg & Hp & Hi).
    destruct (compute_fib_grid_layout n) as (g' & Hg' & Hp' & Hi' & _); [lia|].
    rewrite Hg in Hg'. injection Hg' as <-.
    exists gw, g. rewrite Hp, Hi. done.
Qed.

Lemma C10_wgs84_preserves_indices_witness :
  (0 < 2)%Z ∧
  (∀ gw, compute_fib_grid_wgs84 (λ lon lat, Ok (lat, lon)) 2 = Ok gw →
     ∃ g, compute_fib_grid 2 = Ok g
       ∧ w_points gw = points g ∧ w_gpi gw = gpi g)
  ∧ ((2 * 2 + 1 < 2 ^ 63)%Z →
     (∀ x y : R, ∃ r, (λ lon lat, Ok (lat, lon)) x y = Ok r) →
     ∃ gw g, compute_fib_grid_wgs84 (λ lon lat, Ok (lat, lon)) 2 = Ok gw
       ∧ compute_fib_grid 2 = Ok g
       ∧ w_points gw = points g ∧ w_gpi gw = gpi g
       ∧ w_points gw = seqZ (- 2) (2 * 2 + 1)
       ∧ w_gpi gw = seqZ 0 (2 * 2 + 1)).
Proof.
  split; [lia|].
  apply (C10_wgs84_preserves_indices (λ lon lat, Ok (lat, lon)) 2). lia.
Defined.

End ReprojectionClaims.

(** ** realization.py *)

Section RealizationFacts.
Import PyArr Realization Props.

Lemma as_indices_ints (zs : list Z) : as_indices (SInt <$> zs) = Ok zs.
Proof.
  induction zs as [|z zs IH]; [done|]. cbn. by rewrite IH.
Qed.

Lemma getitem_nonneg {A} (a : list A) (z : Z) (x : A) :
  (0 ≤ z)%Z → getitem a z = Ok x → a !! Z.to_nat z = Some x.
Proof.
  intros Hz. unfold getitem, py_index.
  repeat case_bool_decide; try lia; cbn; try discriminate.
  destruct (a !! Z.to_nat z); cbn; congruence.
Qed.

Lemma getitem_lookup {A} (a : list A) (z : Z) (x : A) :
  (0 ≤ z)%Z → a !! Z.to_nat z = Some x → getitem a z = Ok x.
Proof.
  intros Hz Hx. apply lookup_lt_Some in Hx as Hlt.
  apply (getitem_ok a z (Z.to_nat z)); [|done].
  apply py_index_nonneg. lia.
Qed.

(** [take] reads the elements one index after the other. *)
Lemma take_loop_inv {A} (a : list A) (zs : list Z) :
  ∀ acc r,
    for_each (λ acc i, x ← getitem a i; Ok (acc ++ [x])) zs acc = Ok r →
    ∃ r', r = acc ++ r' ∧ Forall2 (λ x z, getitem a z = Ok x) r' zs.
Proof.
  induction zs as [|z zs IH]; intros acc r; cbn.
  - intros [= <-]. exists []. by rewrite app_nil_r.
  - destruct (getitem a z) as [x|e] eqn:Hx; cbn; [|discriminate].
    intros Hr. destruct (IH _ _ Hr) as (r' & -> & Hall).
    exists (x :: r'). rewrite <- app_assoc. split; [done|].
    by constructor.
Qed.

Lemma take_inv {A} (a : list A) (zs : list Z) (r : list A) :
  take a zs = Ok r → Forall2 (λ x z, getitem a z = Ok x) r zs.
Proof.
  intros H. apply take_loop_inv in H as (r' & -> & Hall). done.
Qed.

Lemma take_loop_ok {A} (a : list A) (zs : list Z) (r' : list A) :
  Forall2 (λ x z, getitem a z = Ok x) r' zs →
  ∀ acc,
    for_each (λ acc i, x ← getitem a i; Ok (acc ++ [x])) zs acc
      = Ok (acc ++ r').
Proof.
  induction 1 as [|x z r' zs Hx _ IH]; intros acc; cbn.
  - by rewrite app_nil_r.
  - rewrite Hx. cbn. rewrite IH, <- app_assoc. done.
Qed.

(** Indexing by in-range, non-negative indices succeeds. *)
Lemma take_in_range {A} (a : list A) (zs : list Z) :
  Forall (λ z, 0 ≤ z < Z.of_nat (length a))%Z zs →
  ∃ r, take a zs = Ok r ∧ Forall2 (λ x z, a !! Z.to_nat z = Some x) r zs.
Proof.
  intros Hzs.
  assert (∃ r, Forall2 (λ x z, a !! Z.to_nat z = Some x ∧ (0 ≤ z)%Z) r zs)
    as [r Hr].
  { induction Hzs as [|z zs Hz _ [r Hr]]; [by exists []|].
    destruct (lookup_lt_is_Some_2 a (Z.to_nat z)) as [x Hx]; [lia|].
    exists (x :: r). constructor; [|done]. split; [done|lia]. }
  exists r. split.
  - unfold take. rewrite (take_loop_ok a zs r); [done|].
    eapply Forall2_impl; [exact Hr|]. intros x z [Hx Hz].
    by apply getitem_lookup.
  - eapply Forall2_impl; [exact Hr|]. by intros x z [Hx Hz].
Qed.

(** A closed string is none of the strings of a closed list. *)
Ltac not_listed :=
  let H := fresh "H" in
  intros H;
  repeat (apply elem_of_cons in H as [H|H]; [discriminate H|]);
  by apply elem_of_nil in H.

Lemma resolution_n_cases (res : Q) :
  (Qeq res (25 # 4) → resolution_n res = Ok 6600000%Z)
  ∧ (Qeq res (25 # 2) → resolution_n res = Ok 1650000%Z)
  ∧ (Qeq res (25 # 1) → resolution_n res = Ok 430000%Z)
  ∧ (¬ Qeq res (25 # 4) → ¬ Qeq res (25 # 2) → ¬ Qeq res (25 # 1) →
     resolution_n res = Err (ValueError "Resolution unknown")).
Proof.
  unfold resolution_n.
  destruct (Qeq_bool res (25 # 4)) eqn:E1;
    [apply Qeq_bool_iff in E1|apply Qeq_bool_neq in E1];
  (destruct (Qeq_bool res (25 # 2)) eqn:E2;
    [apply Qeq_bool_iff in E2|apply Qeq_bool_neq in E2]);
  (destruct (Qeq_bool res (25 # 1)) eqn:E3;
    [apply Qeq_bool_iff in E3|apply Qeq_bool_neq in E3]);
  repeat split; intros; try done;
  try (rewrite E1 in *); try (rewrite E2 in *); discriminate.
Qed.

(** C7. [FibGrid] and [FibLandGrid] map the resolutions 6.25, 12.5 and 25
    to [n] = 6600000, 1650000 and 430000 and go on to read that grid; for
    any other resolution both raise [ValueError("Resolution unknown")]
    and leave the outside world as it was: no cache access, no fetch. *)
Theorem C7_resolution_mapping
    (res : Q) (geodatum sort_order : string) (w : world) :
  (Qeq res (25 # 4) →
     FibGrid_init res geodatum sort_order w
       = FibGrid_load 6600000 res geodatum sort_order w
     ∧ FibLandGrid_init res geodatum sort_order w
       = FibLandGrid_load 6600000 res geodatum sort_order w)
  ∧ (Qeq res (25 # 2) →
     FibGrid_init res geodatum sort_order w
       = FibGrid_load 1650000 res geodatum sort_order w
     ∧ FibLandGrid_init res geodatum sort_order w
       = FibLandGrid_load 1650000 res geodatum sort_order w)
  ∧ (Qeq res (25 # 1) →
     FibGrid_init res geodatum sort_order w
       = FibGrid_load 430000 res geodatum sort_order w
     ∧ FibLandGrid_init res geodatum sort_order w
       = FibLandGrid_load 430000 res geodatum sort_order w)
  ∧ (¬ Qeq res (25 # 4) → ¬ Qeq res (25 # 2) → ¬ Qeq res (25 # 1) →
     FibGrid_init res geodatum sort_order w
       = (Err (ValueError "Resolution unknown"), w)
     ∧ FibLandGrid_init res geodatum sort_order w
       = (Err (ValueError "Resolution unknown"), w)).
Proof.
  destruct (resolution_n_cases res) as (H1 & H2 & H3 & H4).
  unfold FibGrid_init, FibLandGrid_init, FibGrid_load, FibLandGrid_load.
  split; [|split; [|split]].
  - intros H. by rewrite (H1 H).
  - intros H. by rewrite (H2 H).
  - intros H. by rewrite (H3 H).
  - intros Ha Hb Hc. by rewrite (H4 Ha Hb Hc).
Qed.

Lemma C7_resolution_mapping_witness :
  (¬ Qeq 50 (25 # 4) ∧ ¬ Qeq 50 (25 # 2) ∧ ¬ Qeq 50 (25 # 1))
  ∧ FibGrid_init 50 "WGS84" "none" Samples.fresh_world
      = (Err (ValueError "Resolution unknown"), Samples.fresh_world)
  ∧ FibLandGrid_init 50 "WGS84" "none" Samples.fresh_world
      = (Err (ValueError "Resolution unknown"), Samples.fresh_world).
Proof.
  assert (H : ¬ Qeq 50 (25 # 4) ∧ ¬ Qeq 50 (25 # 2) ∧ ¬ Qeq 50 (25 # 1))
    by (repeat split; discriminate).
  split; [exact H|].
  destruct H as (Ha & Hb & Hc).
  exact (proj2 (proj2 (proj2
    (C7_resolution_mapping 50 "WGS84" "none" Samples.fresh_world)))
    Ha Hb Hc).
Defined.

(** C6 (the code departs from the claim). [read_grid_file] looks for the
    cache file and fetches it before it checks [geodatum] and
    [sort_order].  With nothing cached, the invalid geodatum ["wgs84"] and
    the invalid sort order ["bogus"] each cause a warning, the directory
    creation and a download before [ValueError] is raised; the invalid
    geodatum ["foo"] never reaches the check and ends in a [KeyError] from
    the URL table. *)
Theorem C6_fetch_precedes_validation :
  ("wgs84" ∉ ["sphere"; "WGS84"])
  ∧ (FibGrid_init 25 "wgs84" "none" Samples.fresh_world).1
      = Err (ValueError "Geodatum unknown: wgs84")
  ∧ events (FibGrid_init 25 "wgs84" "none" Samples.fresh_world).2
      = [Warn "You are about to download the fibonacci grid file: {filename.name}";
         Mkdir;
         UrlRetrieve Samples.url_wgs84_n430000 "fibgrid_wgs84_n430000.nc"]
  ∧ files (FibGrid_init 25 "wgs84" "none" Samples.fresh_world).2
      !! "fibgrid_wgs84_n430000.nc" = Some Samples.small_dataset
  ∧ ("bogus" ∉ ["none"; "latband"])
  ∧ (FibGrid_init 25 "sphere" "bogus" Samples.fresh_world).1
      = Err (ValueError "Grid point sort order unknown: bogus")
  ∧ events (FibGrid_init 25 "sphere" "bogus" Samples.fresh_world).2
      = [Warn "You are about to download the fibonacci grid file: {filename.name}";
         Mkdir;
         UrlRetrieve Samples.url_sphere_n430000 "fibgrid_sphere_n430000.nc"]
  ∧ ("foo" ∉ ["sphere"; "WGS84"])
  ∧ (FibGrid_init 25 "foo" "none" Samples.fresh_world).1
      = Err (KeyError "n430000_foo")
  ∧ events (FibGrid_init 25 "foo" "none" Samples.fresh_world).2
      = [Warn "You are about to download the fibonacci grid file: {filename.name}";
         Mkdir].
Proof.
  repeat split; try (vm_compute; reflexivity); not_listed.
Qed.

(** With the artifact in the cache and valid arguments, [read_grid_file]
    touches nothing and returns what the dataset parses to. *)
Lemma read_grid_file_cached (n : Z) (geodatum sort_order : string)
    (w : world) (fp : dataset) :
  files w !! grid_filename n geodatum = Some fp →
  geodatum ∈ ["sphere"; "WGS84"] →
  sort_order ∈ ["none"; "latband"] →
  read_grid_file n geodatum sort_order w = (parse_dataset fp sort_order, w).
Proof.
  intros Hfile Hgeo Hsort.
  cbv [read_grid_file mbind io_mbind io_bind file_exists mret io_mret
       io_ret raise lift open_dataset].
  rewrite Hfile.
  rewrite bool_decide_eq_true_2 by eauto. cbn [negb].
  rewrite bool_decide_eq_false_2 by (by intros []).
  rewrite bool_decide_eq_false_2 by (by intros []).
  rewrite Hfile. cbn [of_option]. unfold parse_dataset.
  destruct (read_variables fp sort_order) as [[[[[lon lat] cell] gpi] ml]|e];
    [|reflexivity].
  cbn. destruct (fromarrays ml metadata_fields); reflexivity.
Qed.

Lemma gathered_zip {A B} (a : list A) (b : list B) (zs : list Z)
    (ra : list A) (rb : list B) :
  gathered a zs ra → gathered b zs rb → gathered (zip a b) zs (zip ra rb).
Proof.
  unfold gathered. intros Ha. revert rb.
  induction Ha as [|x z ra zs Hx _ IH]; intros rb Hb.
  - apply Forall2_nil_inv_r in Hb as ->. constructor.
  - apply Forall2_cons_inv_r in Hb as (y & rb' & Hy & Hb & ->).
    cbn. constructor; [|by apply IH].
    apply lookup_zip_with_Some. by exists x, y.
Qed.

Lemma gathered_omap {A} (a : list A) (zs : list Z) (r : list A) :
  gathered a zs r → omap (λ z, a !! Z.to_nat z) zs = r.
Proof.
  induction 1 as [|x z r zs Hx _ IH]; [done|].
  cbn. by rewrite Hx, IH.
Qed.

Lemma gathered_identity {A} (a : list A) :
  gathered a (seqZ 0 (Z.of_nat (length a))) a.
Proof.
  apply Forall2_same_length_lookup. split.
  - rewrite length_seqZ. lia.
  - intros k x z Hx Hz. apply lookup_seqZ in Hz as [-> _].
    by rewrite Z.add_0_l, Nat2Z.id.
Qed.

(** Indexing by a permutation of all positions permutes the array. *)
Lemma gathered_Permutation {A} (a : list A) (zs : list Z) (r : list A) :
  gathered a zs r → zs ≡ₚ seqZ 0 (Z.of_nat (length a)) → r ≡ₚ a.
Proof.
  intros Hr Hp.
  rewrite <- (gathered_omap a zs r Hr).
  transitivity (omap (λ z, a !! Z.to_nat z) (seqZ 0 (Z.of_nat (length a)))).
  - by apply omap_Permutation.
  - by rewrite (gathered_omap a _ a (gathered_identity a)).
Qed.

Lemma parse_dataset_none (fp : dataset)
    (lon0 lat0 cell0 gpi0 m1 m2 m3 m4 m5 : list scalar) (N : nat) :
  fp !! "lon" = Some lon0 → fp !! "lat" = Some lat0 →
  fp !! "cell" = Some cell0 → fp !! "gpi" = Some gpi0 →
  fp !! "land_frac_fw" = Some m1 → fp !! "land_frac_hw" = Some m2 →
  fp !! "land_mask_hw" = Some m3 → fp !! "land_mask_fw" = Some m4 →
  fp !! "land_flag" = Some m5 →
  Forall (λ a, length a = N) [m1; m2; m3; m4; m5] →
  parse_dataset fp "none"
    = Ok (GridFile lon0 lat0 cell0 gpi0
            (zip metadata_fields [m1; m2; m3; m4; m5])).
Proof.
  intros Hlon Hlat Hcell Hgpi H1 H2 H3 H4 H5 Hlen.
  unfold parse_dataset, read_variables, variable.
  rewrite Hlon, Hlat, Hcell, Hgpi.
  cbn [of_option mbind result_bind rbind].
  rewrite bool_decide_eq_false_2 by (intros H; by apply H).
  unfold metadata_fields. cbn [for_each mbind result_bind rbind].
  rewrite H1. cbn [of_option mbind result_bind rbind].
  rewrite H2. cbn [of_option mbind result_bind rbind].
  rewrite H3. cbn [of_option mbind result_bind rbind].
  rewrite H4. cbn [of_option mbind result_bind rbind].
  rewrite H5. cbn [of_option mbind result_bind rbind app].
  unfold fromarrays. cbn [forallb].
  repeat (apply Forall_cons in Hlen as [-> Hlen]).
  by rewrite Nat.eqb_refl.
Qed.

Lemma parse_dataset_latband (fp : dataset)
    (lon0 lat0 cell0 gpi0 m1 m2 m3 m4 m5 : list scalar)
    (lon1 lat1 cell1 gpi1 s1 s2 s3 s4 s5 : list scalar) (zs : list Z) :
  fp !! "lon" = Some lon0 → fp !! "lat" = Some lat0 →
  fp !! "cell" = Some cell0 → fp !! "gpi" = Some gpi0 →
  fp !! "land_frac_fw" = Some m1 → fp !! "land_frac_hw" = Some m2 →
  fp !! "land_mask_hw" = Some m3 → fp !! "land_mask_fw" = Some m4 →
  fp !! "land_flag" = Some m5 →
  fp !! "latband_sorting" = Some (SInt <$> zs) →
  take lon0 zs = Ok lon1 → take lat0 zs = Ok lat1 →
  take cell0 zs = Ok cell1 → take gpi0 zs = Ok gpi1 →
  take m1 zs = Ok s1 → take m2 zs = Ok s2 → take m3 zs = Ok s3 →
  take m4 zs = Ok s4 → take m5 zs = Ok s5 →
  Forall (λ a, length a = length zs) [s1; s2; s3; s4; s5] →
  parse_dataset fp "latband"
    = Ok (GridFile lon1 lat1 cell1 gpi1
            (zip metadata_fields [s1; s2; s3; s4; s5])).
Proof.
  intros Hlon Hlat Hcell Hgpi H1 H2 H3 H4 H5 Hidx
    Tlon Tlat Tcell Tgpi T1 T2 T3 T4 T5 Hlen.
  unfold parse_dataset, read_variables, variable.
  rewrite Hlon, Hlat, Hcell, Hgpi.
  cbn [of_option mbind result_bind rbind].
  rewrite bool_decide_eq_true_2 by discriminate.
  change ("latband" +:+ "_sorting") with "latband_sorting".
  rewrite Hidx. cbn [of_option mbind result_bind rbind].
  unfold fancy. rewrite as_indices_ints.
  cbn [mbind result_bind rbind].
  rewrite Tlon, Tlat, Tcell, Tgpi. cbn [mbind result_bind rbind].
  unfold metadata_fields. cbn [for_each mbind result_bind rbind].
  rewrite H1. cbn [of_option mbind result_bind rbind].
  rewrite T1. cbn [of_option mbind result_bind rbind].
  rewrite H2. cbn [of_option mbind result_bind rbind].
  rewrite T2. cbn [of_option mbind result_bind rbind].
  rewrite H3. cbn [of_option mbind result_bind rbind].
  rewrite T3. cbn [of_option mbind result_bind rbind].
  rewrite H4. cbn [of_option mbind result_bind rbind].
  rewrite T4. cbn [of_option mbind result_bind rbind].
  rewrite H5. cbn [of_option mbind result_bind rbind].
  rewrite T5. cbn [of_option mbind result_bind rbind app].
  unfold fromarrays. cbn [forallb].
  repeat (apply Forall_cons in Hlen as [-> Hlen]).
  by rewrite Nat.eqb_refl.
Qed.

(** C8. With [sort_order = "latband"], a cached artifact whose variables
    all have [N] elements and whose [latband_sorting] array is a
    permutation of [0..N-1]: [FibGrid] indexes [lon], [lat], [cell], [gpi]
    and each of the five metadata fields by that one array, so position
    [k] of every returned array holds the stored element [sorting[k]];
    the [(lon, lat, gpi)] triples of the sorted grid are a permutation of
    those of the grid loaded with [sort_order = "none"]. *)
Theorem C8_latband_applies_one_permutation
    (res : Q) (n : Z) (geodatum : string) (w : world) (fp : dataset)
    (lon0 lat0 cell0 gpi0 m1 m2 m3 m4 m5 : list scalar) (zs : list Z) :
  resolution_n res = Ok n →
  geodatum ∈ ["sphere"; "WGS84"] →
  files w !! grid_filename n geodatum = Some fp →
  fp !! "lon" = Some lon0 → fp !! "lat" = Some lat0 →
  fp !! "cell" = Some cell0 → fp !! "gpi" = Some gpi0 →
  fp !! "land_frac_fw" = Some m1 → fp !! "land_frac_hw" = Some m2 →
  fp !! "land_mask_hw" = Some m3 → fp !! "land_mask_fw" = Some m4 →
  fp !! "land_flag" = Some m5 →
  fp !! "latband_sorting" = Some (SInt <$> zs) →
  Forall (λ a, length a = length zs)
    [lon0; lat0; cell0; gpi0; m1; m2; m3; m4; m5] →
  zs ≡ₚ seqZ 0 (Z.of_nat (length zs)) →
  ∃ o0 o1 : grid_object,
    FibGrid_init res geodatum "none" w = (Ok o0, w)
    ∧ FibGrid_init res geodatum "latband" w = (Ok o1, w)
    ∧ arrlon (base o0) = lon0 ∧ arrlat (base o0) = lat0
    ∧ arrcell (base o0) = cell0 ∧ gpis (base o0) = gpi0
    ∧ metadata o0 = zip metadata_fields [m1; m2; m3; m4; m5]
    ∧ gathered lon0 zs (arrlon (base o1))
    ∧ gathered lat0 zs (arrlat (base o1))
    ∧ gathered cell0 zs (arrcell (base o1))
    ∧ gathered gpi0 zs (gpis (base o1))
    ∧ Forall2 (λ c1 c0, c1.1 = c0.1 ∧ gathered c0.2 zs c1.2)
        (metadata o1) (metadata o0)
    ∧ zip (zip (arrlon (base o1)) (arrlat (base o1))) (gpis (base o1))
        ≡ₚ zip (zip (arrlon (base o0)) (arrlat (base o0))) (gpis (base o0)).
Proof.
  intros Hres Hgeo Hfile Hlon Hlat Hcell Hgpi H1 H2 H3 H4 H5 Hidx Hlen Hperm.
  assert (Hrange : Forall (λ z, 0 ≤ z < Z.of_nat (length zs))%Z zs).
  { apply Forall_forall. intros z Hz. rewrite Hperm in Hz.
    apply elem_of_seqZ in Hz. lia. }
  apply Forall_cons in Hlen as [Llon Hlen].
  apply Forall_cons in Hlen as [Llat Hlen].
  apply Forall_cons in Hlen as [Lcell Hlen].
  apply Forall_cons in Hlen as [Lgpi Hlen].
  pose proof Hlen as Hmeta.
  apply Forall_cons in Hlen as [L1 Hlen].
  apply Forall_cons in Hlen as [L2 Hlen].
  apply Forall_cons in Hlen as [L3 Hlen].
  apply Forall_cons in Hlen as [L4 Hlen].
  apply Forall_cons in Hlen as [L5 _].
  destruct (take_in_range lon0 zs) as (lon1 & Tlon & Glon); [by rewrite Llon|].
  destruct (take_in_range lat0 zs) as (lat1 & Tlat & Glat); [by rewrite Llat|].
  destruct (take_in_range cell0 zs) as (cell1 & Tcell & Gcell);
    [by rewrite Lcell|].
  destruct (take_in_range gpi0 zs) as (gpi1 & Tgpi & Ggpi); [by rewrite Lgpi|].
  destruct (take_in_range m1 zs) as (s1 & T1 & G1); [by rewrite L1|].
  destruct (take_in_range m2 zs) as (s2 & T2 & G2); [by rewrite L2|].
  destruct (take_in_range m3 zs) as (s3 & T3 & G3); [by rewrite L3|].
  destruct (take_in_range m4 zs) as (s4 & T4 & G4); [by rewrite L4|].
  destruct (take_in_range m5 zs) as (s5 & T5 & G5); [by rewrite L5|].
  assert (Hslen : Forall (λ a, length a = length zs) [s1; s2; s3; s4; s5]).
  { repeat constructor; by eapply Forall2_length. }
  pose proof (parse_dataset_none fp _ _ _ _ _ _ _ _ _ _
    Hlon Hlat Hcell Hgpi H1 H2 H3 H4 H5 Hmeta) as P0.
  pose proof (parse_dataset_latband fp _ _ _ _ _ _ _ _ _ _ _ _ _ _ _ _ _ _ _
    Hlon Hlat Hcell Hgpi H1 H2 H3 H4 H5 Hidx
    Tlon Tlat Tcell Tgpi T1 T2 T3 T4 T5 Hslen) as P1.
  eexists _, _. split; [|split].
  - unfold FibGrid_init. rewrite Hres.
    cbv [mbind io_mbind io_bind lift].
    rewrite (read_grid_file_cached n geodatum "none" w fp Hfile Hgeo)
      by (repeat constructor).
    rewrite P0. reflexivity.
  - unfold FibGrid_init. rewrite Hres.
    cbv [mbind io_mbind io_bind lift].
    rewrite (read_grid_file_cached n geodatum "latband" w fp Hfile Hgeo)
      by (repeat constructor).
    rewrite P1. reflexivity.
  - cbn. do 9 (split; [done|]). split.
    + repeat constructor; done.
    + eapply gathered_Permutation.
      * apply gathered_zip; [apply gathered_zip|]; eassumption.
      * rewrite !length_zip, Llon, Llat, Lgpi, !Nat.min_id. exact Hperm.
Qed.

Lemma C8_latband_applies_one_permutation_witness :
  resolution_n 25 = Ok 430000%Z
  ∧ files Samples.cached_world !! grid_filename 430000 "WGS84"
      = Some Samples.small_dataset
  ∧ [2; 0; 1]%Z ≡ₚ seqZ 0 (Z.of_nat (length [2; 0; 1]%Z))
  ∧ ∃ o0 o1 : grid_object,
    FibGrid_init 25 "WGS84" "none" Samples.cached_world
      = (Ok o0, Samples.cached_world)
    ∧ FibGrid_init 25 "WGS84" "latband" Samples.cached_world
      = (Ok o1, Samples.cached_world)
    ∧ arrlon (base o0) = [SFloat 10; SFloat 20; SFloat (-30)]
    ∧ arrlat (base o0) = [SFloat 0; SFloat 41; SFloat (-41)]
    ∧ arrcell (base o0) = [SInt 7; SInt 7; SInt 8]
    ∧ gpis (base o0) = [SInt 0; SInt 1; SInt 2]
    ∧ metadata o0 = zip metadata_fields
        [[SFloat 1; SFloat 0; SFloat (1 # 2)];
         [SFloat 1; SFloat 0; SFloat (1 # 2)];
         [SInt 1; SInt 0; SInt 1]; [SInt 1; SInt 0; SInt 1];
         [SInt 1; SInt 0; SInt 1]]
    ∧ gathered [SFloat 10; SFloat 20; SFloat (-30)] [2; 0; 1]%Z
        (arrlon (base o1))
    ∧ gathered [SFloat 0; SFloat 41; SFloat (-41)] [2; 0; 1]%Z
        (arrlat (base o1))
    ∧ gathered [SInt 7; SInt 7; SInt 8] [2; 0; 1]%Z (arrcell (base o1))
    ∧ gathered [SInt 0; SInt 1; SInt 2] [2; 0; 1]%Z (gpis (base o1))
    ∧ Forall2 (λ c1 c0, c1.1 = c0.1 ∧ gathered c0.2 [2; 0; 1]%Z c1.2)
        (metadata o1) (metadata o0)
    ∧ zip (zip (arrlon (base o1)) (arrlat (base o1))) (gpis (base o1))
        ≡ₚ zip (zip (arrlon (base o0)) (arrlat (base o0))) (gpis (base o0)).
Proof.
  assert (Hp : [2; 0; 1]%Z ≡ₚ seqZ 0 (Z.of_nat (length [2; 0; 1]%Z)))
    by exact (Permutation_cons_app [0; 1]%Z [] 2%Z (Permutation_refl _)).
  split; [reflexivity|]. split; [vm_compute; reflexivity|]. split; [exact Hp|].
  apply (C8_latband_applies_one_permutation 25 430000 "WGS84"
           Samples.cached_world Samples.small_dataset
           [SFloat 10; SFloat 20; SFloat (-30)]
           [SFloat 0; SFloat 41; SFloat (-41)]
           [SInt 7; SInt 7; SInt 8] [SInt 0; SInt 1; SInt 2]
           [SFloat 1; SFloat 0; SFloat (1 # 2)]
           [SFloat 1; SFloat 0; SFloat (1 # 2)]
           [SInt 1; SInt 0; SInt 1] [SInt 1; SInt 0; SInt 1]
           [SInt 1; SInt 0; SInt 1] [2; 0; 1]%Z);
    try (vm_compute; reflexivity).
  - repeat constructor.
  - repeat constructor.
  - exact Hp.
Defined.

Lemma nonzero_from_elem (a : list scalar) :
  ∀ (s k : Z),
    k ∈ nonzero_from s a ↔
    (s ≤ k)%Z ∧ ∃ x, a !! Z.to_nat (k - s) = Some x ∧ is_nonzero x = true.
Proof.
  induction a as [|y a IH]; intros s k; cbn.
  - split; [by intros ?%elem_of_nil|]. by intros (_ & x & ? & _).
  - assert (Hrest :
      k ∈ nonzero_from (s + 1) a ↔
      (s < k)%Z ∧ ∃ x, (y :: a) !! Z.to_nat (k - s) = Some x
                        ∧ is_nonzero x = true).
    { rewrite IH. split.
      - intros (Hk & x & Hx & Hnz). split; [lia|]. exists x. split; [|done].
        replace (Z.to_nat (k - s)) with (S (Z.to_nat (k - (s + 1)))) by lia.
        done.
      - intros (Hk & x & Hx & Hnz). split; [lia|]. exists x. split; [|done].
        replace (Z.to_nat (k - s)) with (S (Z.to_nat (k - (s + 1)))) in Hx
          by lia.
        done. }
    destruct (is_nonzero y) eqn:Hy.
    + rewrite elem_of_cons, Hrest. split.
      * intros [->|(Hk & Hx)]; [|split; [lia|done]].
        split; [lia|]. exists y. by rewrite Z.sub_diag.
      * intros (Hk & x & Hx & Hnz).
        destruct (decide (k = s)) as [->|Hne]; [by left|right].
        split; [lia|]. by exists x.
    + rewrite Hrest. split.
      * intros (Hk & Hx). split; [lia|done].
      * intros (Hk & x & Hx & Hnz).
        destruct (decide (k = s)) as [->|Hne].
        -- rewrite Z.sub_diag in Hx. cbn in Hx. injection Hx as <-.
           congruence.
        -- split; [lia|]. by exists x.
Qed.

Lemma nonzero_from_length (a : list scalar) :
  ∀ s : Z, length (nonzero_from s a) = length (List.filter is_nonzero a).
Proof.
  induction a as [|y a IH]; intros s; cbn; [done|].
  destruct (is_nonzero y); cbn; by rewrite IH.
Qed.

Lemma take_nonzero_gathered {A} (a : list A) (flag : list scalar)
    (r : list A) :
  take a (nonzero flag) = Ok r → gathered a (nonzero flag) r.
Proof.
  intros H. apply take_inv in H. unfold gathered.
  apply Forall2_same_length_lookup. split; [by eapply Forall2_length|].
  intros k x z Hx Hz.
  pose proof (Forall2_lookup_lr _ _ _ _ _ _ H Hx Hz) as Hget.
  apply getitem_nonneg; [|done].
  apply list_elem_of_lookup_2 in Hz.
  apply nonzero_from_elem in Hz. lia.
Qed.

(** C9. A [FibLandGrid] that loads has as its subset exactly the storage
    positions whose [land_flag] is non-zero; its number of active points
    is the number of non-zero [land_flag] values; each active grid point
    index is the value the full grid [FibGrid] (same arguments, same
    arrays) stores at that position, unchanged, and [land_flag] is
    non-zero there. *)
Theorem C9_land_subset_is_land_flag
    (res : Q) (geodatum sort_order : string) (w w' : world)
    (o : grid_object) :
  FibLandGrid_init res geodatum sort_order w = (Ok o, w') →
  ∃ (flag : list scalar) (full : grid_object),
    FibGrid_init res geodatum sort_order w = (Ok full, w')
    ∧ metadata full = metadata o
    ∧ arrlon (base full) = arrlon (base o)
    ∧ arrlat (base full) = arrlat (base o)
    ∧ arrcell (base full) = arrcell (base o)
    ∧ gpis (base full) = gpis (base o)
    ∧ field (metadata full) "land_flag" = Ok flag
    ∧ subset (base o) = Some (nonzero flag)
    ∧ (∀ k : Z, k ∈ nonzero flag ↔
         (0 ≤ k)%Z ∧ ∃ x, flag !! Z.to_nat k = Some x ∧ is_nonzero x = true)
    ∧ length (activegpis (base o)) = length (List.filter is_nonzero flag)
    ∧ gathered (arrlon (base full)) (nonzero flag) (activearrlon (base o))
    ∧ gathered (arrlat (base full)) (nonzero flag) (activearrlat (base o))
    ∧ gathered (arrcell (base full)) (nonzero flag) (activearrcell (base o))
    ∧ Forall2 (λ v k, gpis (base full) !! Z.to_nat k = Some v
                      ∧ ∃ x, flag !! Z.to_nat k = Some x
                             ∧ is_nonzero x = true)
        (activegpis (base o)) (nonzero flag).
Proof.
  unfold FibLandGrid_init, FibGrid_init.
  cbv [mbind io_mbind io_bind lift mret io_mret io_ret].
  destruct (resolution_n res) as [n|e]; [|discriminate].
  destruct (read_grid_file n geodatum sort_order w) as [[f|e] w1];
    [|discriminate].
  destruct (field (gf_metadata f) "land_flag") as [flag|e] eqn:Hflag;
    [|discriminate].
  unfold CellGrid_init.
  destruct (take (gf_lon f) (nonzero flag)) as [alon|e] eqn:Tlon;
    [|discriminate].
  destruct (take (gf_lat f) (nonzero flag)) as [alat|e] eqn:Tlat;
    [|discriminate].
  destruct (take (gf_cell f) (nonzero flag)) as [acell|e] eqn:Tcell;
    [|discriminate].
  destruct (take (gf_gpi f) (nonzero flag)) as [agpi|e] eqn:Tgpi;
    [|discriminate].
  cbn. intros [= <- <-].
  apply take_nonzero_gathered in Tlon, Tlat, Tcell, Tgpi.
  eexists flag, _. split; [reflexivity|]. cbn.
  do 7 (split; [done|]). split; [|split; [|split; [|split; [|split]]]];
    try done.
  - intros k. unfold nonzero. rewrite nonzero_from_elem.
    by rewrite Z.sub_0_r.
  - rewrite (Forall2_length _ _ _ Tgpi). apply nonzero_from_length.
  - unfold gathered in Tgpi.
    apply Forall2_same_length_lookup. split; [by eapply Forall2_length|].
    intros k v z Hv Hz. split.
    + exact (Forall2_lookup_lr _ _ _ _ _ _ Tgpi Hv Hz).
    + apply list_elem_of_lookup_2 in Hz. unfold nonzero in Hz.
      apply nonzero_from_elem in Hz as (_ & x & Hx & Hnz).
      rewrite Z.sub_0_r in Hx. by exists x.
Qed.

Lemma C9_land_subset_is_land_flag_witness :
  ∃ o : grid_object,
    FibLandGrid_init 25 "WGS84" "none" Samples.cached_world
      = (Ok o, Samples.cached_world)
    ∧ activegpis (base o) = [SInt 0; SInt 2]
    ∧ ∃ (flag : list scalar) (full : grid_object),
    FibGrid_init 25 "WGS84" "none" Samples.cached_world
      = (Ok full, Samples.cached_world)
    ∧ metadata full = metadata o
    ∧ arrlon (base full) = arrlon (base o)
    ∧ arrlat (base full) = arrlat (base o)
    ∧ arrcell (base full) = arrcell (base o)
    ∧ gpis (base full) = gpis (base o)
    ∧ field (metadata full) "land_flag" = Ok flag
    ∧ subset (base o) = Some (nonzero flag)
    ∧ (∀ k : Z, k ∈ nonzero flag ↔
         (0 ≤ k)%Z ∧ ∃ x, flag !! Z.to_nat k = Some x ∧ is_nonzero x = true)
    ∧ length (activegpis (base o)) = length (List.filter is_nonzero flag)
    ∧ gathered (arrlon (base full)) (nonzero flag) (activearrlon (base o))
    ∧ gathered (arrlat (base full)) (nonzero flag) (activearrlat (base o))
    ∧ gathered (arrcell (base full)) (nonzero flag) (activearrcell (base o))
    ∧ Forall2 (λ v k, gpis (base full) !! Z.to_nat k = Some v
                      ∧ ∃ x, flag !! Z.to_nat k = Some x
                             ∧ is_nonzero x = true)
        (activegpis (base o)) (nonzero flag).
Proof.
  eexists. split; [vm_compute; reflexivity|]. split; [reflexivity|].
  eapply (C9_land_subset_is_land_flag 25 "WGS84" "none"
            Samples.cached_world Samples.cached_world).
  vm_compute. reflexivity.
Defined.

End RealizationFacts.

(** * Further properties of construction.py *)

Section LatticeMore.
Import PyArr Construction Props More.
Local Open Scope R_scope.

Lemma asin_strict_mono (x y : R) : -1 <= x → x < y → y <= 1 → asin x < asin y.
Proof.
  intros Hx Hxy Hy.
  destruct (Rlt_dec (asin x) (asin y)) as [|Hge]; [done|exfalso].
  destruct (asin_bound x) as [Hx1 Hx2]. destruct (asin_bound y) as [Hy1 Hy2].
  assert (Hs : sin (asin y) <= sin (asin x)) by (apply sin_incr_1; lra).
  rewrite !sin_asin in Hs by lra. lra.
Qed.

(** The argument of [arcsin] stays strictly inside [(-1, 1)]. *)
Lemma lat_argument_range (n i : Z) :
  (0 ≤ n)%Z → (- n ≤ i ≤ n)%Z →
  -1 < IZR (2 * i) / IZR (2 * n + 1) < 1.
Proof.
  intros Hn Hi.
  assert (Hd : 0 < IZR (2 * n + 1)) by (apply IZR_lt; lia).
  assert (Hlo : - IZR (2 * n + 1) < IZR (2 * i))
    by (rewrite <- opp_IZR; apply IZR_lt; lia).
  assert (Hhi : IZR (2 * i) < IZR (2 * n + 1)) by (apply IZR_lt; lia).
  split.
  - apply (Rmult_lt_reg_r (IZR (2 * n + 1))); [done|].
    unfold Rdiv. rewrite Rmult_assoc, Rinv_l by lra. lra.
  - apply (Rmult_lt_reg_r (IZR (2 * n + 1))); [done|].
    unfold Rdiv. rewrite Rmult_assoc, Rinv_l by lra. lra.
Qed.

Lemma scale_to_degrees_lt (a b : R) : a < b → a * 180 / PI < b * 180 / PI.
Proof.
  intros Hab. pose proof (Rinv_0_lt_compat PI PI_RGT_0). unfold Rdiv. nra.
Qed.

Lemma lat_formula_strict_mono (n i j : Z) :
  (0 ≤ n)%Z → (- n ≤ i)%Z → (i < j)%Z → (j ≤ n)%Z →
  lat_formula n i < lat_formula n j.
Proof.
  intros Hn Hi Hij Hj. unfold lat_formula.
  destruct (lat_argument_range n i Hn) as [Hi1 Hi2]; [lia|].
  destruct (lat_argument_range n j Hn) as [Hj1 Hj2]; [lia|].
  apply scale_to_degrees_lt, asin_strict_mono; [lra| |lra].
  assert (Hd : 0 < IZR (2 * n + 1)) by (apply IZR_lt; lia).
  pose proof (Rinv_0_lt_compat _ Hd).
  assert (IZR (2 * i) < IZR (2 * j)) by (apply IZR_lt; lia).
  unfold Rdiv. nra.
Qed.

Lemma lat_formula_zero (n : Z) : lat_formula n 0 = 0.
Proof.
  unfold lat_formula. rewrite Z.mul_0_r. unfold Rdiv at 2.
  rewrite Rmult_0_l, asin_0. unfold Rdiv. lra.
Qed.

Lemma lat_formula_opp (n i : Z) : lat_formula n (- i) = - lat_formula n i.
Proof.
  unfold lat_formula.
  replace (2 * - i)%Z with (- (2 * i))%Z by lia.
  rewrite opp_IZR.
  replace (- IZR (2 * i) / IZR (2 * n + 1))
    with (- (IZR (2 * i) / IZR (2 * n + 1))) by (unfold Rdiv; lra).
  rewrite asin_opp. unfold Rdiv. lra.
Qed.

Lemma lat_formula_strict_range (n i : Z) :
  (0 ≤ n)%Z → (- n ≤ i ≤ n)%Z → -90 < lat_formula n i < 90.
Proof.
  intros Hn Hi. unfold lat_formula.
  destruct (asin_bound_lt _ (lat_argument_range n i Hn Hi)) as [Hlo Hhi].
  set (a := asin _) in *.
  pose proof PI_RGT_0 as Hpi.
  split.
  - replace (-90) with (- (PI / 2) * 180 / PI) by (field; lra).
    by apply scale_to_degrees_lt.
  - replace 90 with (PI / 2 * 180 / PI) by (field; lra).
    by apply scale_to_degrees_lt.
Qed.

Lemma np_mod_zero (y : R) : 0 < y → np_mod 0 y = 0.
Proof.
  intros Hy. unfold np_mod.
  replace (0 / y) with 0 by (unfold Rdiv; lra).
  rewrite <- (Int_part_spec 0 0) by lra. lra.
Qed.

Lemma lon_formula_zero : wrap_lon (lon_formula 0) = 0.
Proof.
  unfold lon_formula. rewrite (np_mod_zero phi phi_pos).
  unfold wrap_lon.
  replace (0 * 360 / phi) with 0 by (unfold Rdiv; lra).
  destruct (Rlt_dec 0 (-180)); [lra|].
  destruct (Rlt_dec 180 0); [lra|done].
Qed.

Lemma signed_at_inj (n p q : Z) :
  (0 ≤ n)%Z → (0 ≤ p ≤ 2 * n)%Z → (0 ≤ q ≤ 2 * n)%Z →
  signed_at n p = signed_at n q → p = q.
Proof. intros Hn Hp Hq. unfold signed_at. repeat case_bool_decide; lia. Qed.

(** X1. The latitudes of the signed indices [i] and [-i] are opposite:
    for [1 <= i <= n], with [2n+1] an int64 value, the returned latitude
    at position [i] is the negative of the one at position [2n+1-i]. *)
Theorem lattice_latitude_symmetry (n i : Z) :
  (1 ≤ i ≤ n)%Z →
  (2 * n + 1 < 2 ^ 63)%Z →
  ∃ (g : fib_grid) (v : R),
    compute_fib_grid n = Ok g
    ∧ lat g !! Z.to_nat i = Some (Some v)
    ∧ lat g !! Z.to_nat (2 * n + 1 - i) = Some (Some (- v)).
Proof.
  intros Hi _.
  destruct (compute_fib_grid_layout n) as (g & Hrun & _ & _ & _ & _ & Hval);
    [lia|].
  exists g, (lat_formula n i). split; [done|].
  destruct (Hval i) as [Ha _]; [lia|].
  destruct (Hval (- i)%Z) as [Hb _]; [lia|].
  unfold slot_of in Ha, Hb.
  rewrite bool_decide_eq_true_2 in Ha by lia.
  rewrite bool_decide_eq_false_2 in Hb by lia.
  rewrite lat_formula_opp in Hb.
  split; [done|]. by replace (2 * n + 1 - i)%Z with (2 * n + 1 + - i)%Z by lia.
Qed.

Lemma lattice_latitude_symmetry_witness :
  (1 ≤ 2 ≤ 3)%Z ∧ (2 * 3 + 1 < 2 ^ 63)%Z ∧
  ∃ (g : fib_grid) (v : R),
    compute_fib_grid 3 = Ok g
    ∧ lat g !! Z.to_nat 2 = Some (Some v)
    ∧ lat g !! Z.to_nat (2 * 3 + 1 - 2) = Some (Some (- v)).
Proof.
  split; [lia|]. split; [reflexivity|].
  apply (lattice_latitude_symmetry 3 2); [lia|reflexivity].
Defined.

(** X2. The order of the returned coordinate arrays, for [n > 0] with
    [2n+1] an int64 value: positions [0..n] hold the latitudes of the
    signed indices [0..n] (zero, then positive and increasing),
    positions [n+1..2n] those of [-n..-1] (negative and increasing). *)
Theorem lattice_storage_order (n : Z) :
  (0 < n)%Z →
  (2 * n + 1 < 2 ^ 63)%Z →
  ∃ g : fib_grid,
    compute_fib_grid n = Ok g
    ∧ (∀ p, (0 ≤ p ≤ n)%Z →
         lat g !! Z.to_nat p = Some (Some (lat_formula n p))
         ∧ 0 <= lat_formula n p)
    ∧ (∀ p, (n < p ≤ 2 * n)%Z →
         lat g !! Z.to_nat p = Some (Some (lat_formula n (p - (2 * n + 1))))
         ∧ lat_formula n (p - (2 * n + 1)) < 0)
    ∧ (∀ (p q : nat) (u v : R),
         lat g !! p = Some (Some u) → lat g !! q = Some (Some v) →
         (p < q)%nat →
         (Z.of_nat q ≤ n)%Z ∨ (n < Z.of_nat p)%Z → u < v).
Proof.
  intros Hn _.
  destruct (compute_fib_grid_slots n) as
    (g & Hrun & _ & _ & Hlat & _ & Hval); [lia|].
  assert (Hnorth : ∀ p, (0 ≤ p ≤ n)%Z → signed_at n p = p).
  { intros p Hp. unfold signed_at. by rewrite bool_decide_eq_true_2 by lia. }
  assert (Hsouth : ∀ p, (n < p)%Z → signed_at n p = (p - (2 * n + 1))%Z).
  { intros p Hp. unfold signed_at. by rewrite bool_decide_eq_false_2 by lia. }
  exists g. split; [done|]. split; [|split].
  - intros p Hp. destruct (Hval p) as [Ha _]; [lia|].
    rewrite Hnorth in Ha by done. split; [done|].
    destruct (decide (p = 0%Z)) as [->|Hne].
    + rewrite lat_formula_zero. lra.
    + rewrite <- (lat_formula_zero n). left.
      apply lat_formula_strict_mono; lia.
  - intros p Hp. destruct (Hval p) as [Ha _]; [lia|].
    rewrite Hsouth in Ha by lia. split; [done|].
    rewrite <- (lat_formula_zero n). apply lat_formula_strict_mono; lia.
  - intros p q u v Hu Hv Hpq Hrun'.
    apply lookup_lt_Some in Hu as Hp. apply lookup_lt_Some in Hv as Hq.
    rewrite Hlat in Hp, Hq.
    destruct (Hval (Z.of_nat p)) as [Ha _]; [lia|].
    destruct (Hval (Z.of_nat q)) as [Hb _]; [lia|].
    rewrite Nat2Z.id in Ha, Hb. rewrite Hu in Ha. rewrite Hv in Hb.
    injection Ha as ->. injection Hb as ->.
    destruct Hrun' as [Hq'|Hp'].
    + rewrite !Hnorth by lia. apply lat_formula_strict_mono; lia.
    + rewrite !Hsouth by lia. apply lat_formula_strict_mono; lia.
Qed.

Lemma lattice_storage_order_witness :
  (0 < 2)%Z ∧ (2 * 2 + 1 < 2 ^ 63)%Z ∧
  ∃ g : fib_grid,
    compute_fib_grid 2 = Ok g
    ∧ (∀ p, (0 ≤ p ≤ 2)%Z →
         lat g !! Z.to_nat p = Some (Some (lat_formula 2 p))
         ∧ 0 <= lat_formula 2 p)
    ∧ (∀ p, (2 < p ≤ 2 * 2)%Z →
         lat g !! Z.to_nat p = Some (Some (lat_formula 2 (p - (2 * 2 + 1))))
         ∧ lat_formula 2 (p - (2 * 2 + 1)) < 0)
    ∧ (∀ (p q : nat) (u v : R),
         lat g !! p = Some (Some u) → lat g !! q = Some (Some v) →
         (p < q)%nat →
         (Z.of_nat q ≤ 2)%Z ∨ (2 < Z.of_nat p)%Z → u < v).
Proof.
  split; [lia|]. split; [reflexivity|].
  apply (lattice_storage_order 2); [lia|reflexivity].
Defined.

(** X3. For [n >= 0] with [2n+1] an int64 value the first returned point
    is latitude 0, longitude 0; no returned latitude is a pole; and no
    two positions share a latitude, so the returned points are pairwise
    distinct. *)
Theorem lattice_points_distinct (n : Z) :
  (0 ≤ n)%Z →
  (2 * n + 1 < 2 ^ 63)%Z →
  ∃ g : fib_grid,
    compute_fib_grid n = Ok g
    ∧ lat g !! 0%nat = Some (Some 0)
    ∧ lon g !! 0%nat = Some (Some 0)
    ∧ (∀ (p : nat) (v : R), lat g !! p = Some (Some v) → -90 < v < 90)
    ∧ (∀ (p q : nat) (c : option R),
         lat g !! p = Some c → lat g !! q = Some c → p = q).
Proof.
  intros Hn _.
  destruct (compute_fib_grid_slots n Hn) as
    (g & Hrun & _ & _ & Hlat & _ & Hval).
  exists g. split; [done|].
  destruct (Hval 0%Z) as [H0 H0']; [lia|].
  assert (Hs0 : signed_at n 0 = 0%Z).
  { unfold signed_at. by rewrite bool_decide_eq_true_2 by lia. }
  rewrite Hs0, lat_formula_zero in H0. rewrite Hs0, lon_formula_zero in H0'.
  split; [done|]. split; [done|]. split.
  - intros p v Hv. apply lookup_lt_Some in Hv as Hp. rewrite Hlat in Hp.
    destruct (Hval (Z.of_nat p)) as [Ha _]; [lia|].
    rewrite Nat2Z.id, Hv in Ha. injection Ha as ->.
    apply lat_formula_strict_range; [done|].
    apply slot_of_signed_at; lia.
  - intros p q c Hp Hq.
    apply lookup_lt_Some in Hp as Hp'. apply lookup_lt_Some in Hq as Hq'.
    rewrite Hlat in Hp', Hq'.
    destruct (Hval (Z.of_nat p)) as [Ha _]; [lia|].
    destruct (Hval (Z.of_nat q)) as [Hb _]; [lia|].
    rewrite Nat2Z.id in Ha, Hb. rewrite Hp in Ha. rewrite Hq in Hb.
    rewrite Ha in Hb. injection Hb as Heq.
    destruct (slot_of_signed_at n (Z.of_nat p)) as [Hrp _]; [lia..|].
    destruct (slot_of_signed_at n (Z.of_nat q)) as [Hrq _]; [lia..|].
    assert (Hsig : signed_at n (Z.of_nat p) = signed_at n (Z.of_nat q)).
    { destruct (Z.lt_trichotomy (signed_at n (Z.of_nat p))
                  (signed_at n (Z.of_nat q))) as [Hlt|[Heq'|Hgt]]; [|done|].
      - pose proof (lat_formula_strict_mono n _ _ Hn
                      (proj1 Hrp) Hlt (proj2 Hrq)). lra.
      - pose proof (lat_formula_strict_mono n _ _ Hn
                      (proj1 Hrq) Hgt (proj2 Hrp)). lra. }
    apply signed_at_inj in Hsig; lia.
Qed.

Lemma lattice_points_distinct_witness :
  (0 ≤ 2)%Z ∧ (2 * 2 + 1 < 2 ^ 63)%Z ∧
  ∃ g : fib_grid,
    compute_fib_grid 2 = Ok g
    ∧ lat g !! 0%nat = Some (Some 0)
    ∧ lon g !! 0%nat = Some (Some 0)
    ∧ (∀ (p : nat) (v : R), lat g !! p = Some (Some v) → -90 < v < 90)
    ∧ (∀ (p q : nat) (c : option R),
         lat g !! p = Some c → lat g !! q = Some c → p = q).
Proof.
  split; [lia|]. split; [reflexivity|].
  apply (lattice_points_distinct 2); [lia|reflexivity].
Defined.

Lemma compute_fib_grid_zero :
  ∃ g : fib_grid,
    compute_fib_grid 0 = Ok g
    ∧ g = FibGridTuple [0%Z] [0%Z] [Some 0] [Some 0].
Proof.
  destruct (compute_fib_grid_slots 0) as
    (g & Hrun & Hp & Hg & Hlat & Hlon & Hval); [lia|].
  exists g. split; [done|].
  destruct (Hval 0%Z) as [Ha Ho]; [lia|].
  change (signed_at 0 0) with 0%Z in Ha, Ho.
  rewrite lat_formula_zero in Ha. rewrite lon_formula_zero in Ho.
  destruct g as [pts gp lo la]. cbn in *. subst pts gp.
  destruct la as [|a [|? ?]]; try discriminate.
  destruct lo as [|o [|? ?]]; try discriminate.
  cbn in Ha, Ho. by injection Ha as ->; injection Ho as ->.
Qed.

(** X4. [compute_fib_grid] raises for no [n <= 0] whose negation is an
    int64 value ([-2^63 < n]): for [n = 0] it returns the single point
    with signed index 0 at latitude 0 and longitude 0, for [n < 0] four
    empty arrays. *)
Theorem lattice_nonpositive_n (n : Z) :
  (- 2 ^ 63 < n)%Z →
  (n ≤ 0)%Z →
  ∃ g : fib_grid,
    compute_fib_grid n = Ok g
    ∧ (n = 0%Z → g = FibGridTuple [0%Z] [0%Z] [Some 0] [Some 0])
    ∧ ((n < 0)%Z → g = FibGridTuple [] [] [] []).
Proof.
  intros _ Hn. destruct (decide (n = 0%Z)) as [->|Hne].
  - destruct (compute_fib_grid_zero) as (g & Hrun & Hg).
    exists g. split; [done|]. split; [done|]. lia.
  - exists (FibGridTuple [] [] [] []).
    split; [apply compute_fib_grid_negative; lia|]. split; [lia|done].
Qed.

Lemma lattice_nonpositive_n_witness :
  (- 2 ^ 63 < -2)%Z ∧ (-2 ≤ 0)%Z ∧
  ∃ g : fib_grid,
    compute_fib_grid (-2) = Ok g
    ∧ ((-2)%Z = 0%Z → g = FibGridTuple [0%Z] [0%Z] [Some 0] [Some 0])
    ∧ ((-2 < 0)%Z → g = FibGridTuple [] [] [] []).
Proof.
  split; [reflexivity|]. split; [lia|].
  apply (lattice_nonpositive_n (-2)); [reflexivity|lia].
Defined.

End LatticeMore.

(** * Further properties of the reprojection loop *)

Section ReprojectionMore.
Import PyArr Construction Props More.

(** A run of the reprojection loop that ends normally has called the
    transform with success on every pair it read and has stored the two
    results at the pair's position; it has left the earlier positions
    alone. *)
Lemma wgs84_loop_inv (T : R → R → result (R * R))
    (cs : list (option R * option R)) :
  ∀ st st' : wgs84_state,
    (0 ≤ ws_i st)%Z →
    for_each (wgs84_body T) cs st = Ok st' →
    (∀ j : nat, (j < Z.to_nat (ws_i st))%nat →
       ws_lat st' !! j = ws_lat st !! j ∧ ws_lon st' !! j = ws_lon st !! j)
    ∧ (∀ (k : nat) (a b : option R), cs !! k = Some (a, b) →
         ∃ (x y : R) (r : R * R),
           a = Some x ∧ b = Some y ∧ T x y = Ok r
           ∧ ws_lat st' !! (Z.to_nat (ws_i st) + k)%nat = Some r.1
           ∧ ws_lon st' !! (Z.to_nat (ws_i st) + k)%nat = Some r.2).
Proof.
  induction cs as [|[a b] cs IH]; intros st st' Hi; cbn.
  - intros [= <-]. split; [done|]. intros k a b Hk. discriminate.
  - unfold wgs84_body at 1. cbn.
    destruct a as [x|]; cbn; [|discriminate].
    destruct b as [y|]; cbn; [|discriminate].
    destruct (T x y) as [r|e] eqn:HT; cbn; [|discriminate].
    unfold setitem.
    destruct (py_index (length (ws_lat st)) (ws_i st)) as [k1|] eqn:Hk1;
      cbn; [|discriminate].
    destruct (py_index (length (ws_lon st)) (ws_i st)) as [k2|] eqn:Hk2;
      cbn; [|discriminate].
    intros Hrun.
    pose proof (py_index_lt _ _ _ Hk1) as Hlt1.
    pose proof (py_index_lt _ _ _ Hk2) as Hlt2.
    assert (k1 = Z.to_nat (ws_i st)) as ->.
    { unfold py_index in Hk1. repeat case_bool_decide; try lia; congruence. }
    assert (k2 = Z.to_nat (ws_i st)) as ->.
    { unfold py_index in Hk2. repeat case_bool_decide; try lia; congruence. }
    apply IH in Hrun as [Hkeep Hvals]; [|cbn; lia].
    cbn in Hkeep, Hvals.
    replace (Z.to_nat (ws_i st + 1)) with (S (Z.to_nat (ws_i st)))
      in Hkeep, Hvals by lia.
    split.
    + intros j Hj. destruct (Hkeep j) as [Ha Hb]; [lia|].
      rewrite Ha, Hb. split; apply list_lookup_insert_ne; lia.
    + intros [|k] a b Hk; cbn in Hk.
      * injection Hk as <- <-. exists x, y, r. do 3 (split; [done|]).
        rewrite Nat.add_0_r.
        destruct (Hkeep (Z.to_nat (ws_i st))) as [Ha Hb]; [lia|].
        rewrite Ha, Hb. split; by apply list_lookup_insert_eq.
      * destruct (Hvals k a b Hk) as (x' & y' & r' & -> & -> & HT' & Ha & Hb).
        exists x', y', r'. do 3 (split; [done|]).
        by replace (Z.to_nat (ws_i st) + S k)%nat
          with (S (Z.to_nat (ws_i st)) + k)%nat by lia.
Qed.

(** The values of [compute_fib_grid_wgs84], position by position. *)
Lemma wgs84_values
    (T : R → R → result (R * R)) (n : Z) (gw : wgs84_grid) :
  compute_fib_grid_wgs84 T n = Ok gw →
  ∃ g : fib_grid,
    compute_fib_grid n = Ok g
    ∧ ∀ (k : nat) (cx cy : option R),
        lon g !! k = Some cx → lat g !! k = Some cy →
        ∃ (x y : R) (r : R * R),
          cx = Some x ∧ cy = Some y ∧ T x y = Ok r
          ∧ wgs84_lat gw !! k = Some r.1
          ∧ wgs84_lon gw !! k = Some r.2.
Proof.
  unfold compute_fib_grid_wgs84.
  destruct (compute_fib_grid n) as [g|e]; [cbn|discriminate].
  destruct (for_each _ _ _) as [st|e] eqn:Hloop; [cbn|discriminate].
  intros [= <-]. exists g. split; [done|].
  apply wgs84_loop_inv in Hloop as [_ Hvals]; [|cbn; lia].
  intros k cx cy Hx Hy. cbn.
  apply (Hvals k cx cy).
  apply lookup_zip_with_Some. by exists cx, cy.
Qed.

(** X6. A value of [compute_fib_grid_wgs84] holds, at every position, the
    transform of the sphere point at that position: the first component
    of [transform(lon, lat)] in [wgs84_lat], the second in [wgs84_lon];
    so the transform succeeded on every point of the sphere grid. *)
Theorem wgs84_pointwise_transform
    (T : R → R → result (R * R)) (n : Z) (gw : wgs84_grid) :
  compute_fib_grid_wgs84 T n = Ok gw →
  ∃ g : fib_grid,
    compute_fib_grid n = Ok g
    ∧ ∀ (k : nat) (cx cy : option R),
        lon g !! k = Some cx → lat g !! k = Some cy →
        ∃ (x y : R) (r : R * R),
          cx = Some x ∧ cy = Some y ∧ T x y = Ok r
          ∧ wgs84_lat gw !! k = Some r.1
          ∧ wgs84_lon gw !! k = Some r.2.
Proof. apply wgs84_values. Qed.

Lemma wgs84_pointwise_transform_witness :
  ∃ gw : wgs84_grid,
    compute_fib_grid_wgs84 (λ lon lat, Ok (lat, lon)) 1 = Ok gw
    ∧ ∃ g : fib_grid,
      compute_fib_grid 1 = Ok g
      ∧ ∀ (k : nat) (cx cy : option R),
          lon g !! k = Some cx → lat g !! k = Some cy →
          ∃ (x y : R) (r : R * R),
            cx = Some x ∧ cy = Some y
            ∧ (λ lon lat, Ok (lat, lon)) x y = Ok r
            ∧ wgs84_lat gw !! k = Some r.1
            ∧ wgs84_lon gw !! k = Some r.2.
Proof.
  destruct (wgs84_returns (λ lon lat, Ok (lat, lon)) 1) as (gw & Hrun & _);
    [intros x y; by eexists|].
  exists gw. split; [exact Hrun|].
  exact (wgs84_pointwise_transform (λ lon lat, Ok (lat, lon)) 1 gw Hrun).
Defined.

(** X7. For [n] with [-n] and [2n+1] int64 values: failure of the
    transform is not absorbed.  If it raises on some point of the sphere
    grid, [compute_fib_grid_wgs84] raises and returns no partial result;
    if it raises [e] on every input and [n >= 0], the call raises [e].
    For [n < 0] there is no point and the transform is not consulted:
    the result is four empty arrays whatever it does. *)
Theorem wgs84_transform_failure_propagates
    (T : R → R → result (R * R)) (n : Z) :
  (- 2 ^ 63 < n)%Z →
  (2 * n + 1 < 2 ^ 63)%Z →
  (∀ (g : fib_grid) (k : nat) (x y : R) (e : exn),
     compute_fib_grid n = Ok g →
     lon g !! k = Some (Some x) → lat g !! k = Some (Some y) →
     T x y = Err e →
     ∃ e', compute_fib_grid_wgs84 T n = Err e')
  ∧ ((0 ≤ n)%Z → ∀ e, (∀ x y, T x y = Err e) →
       compute_fib_grid_wgs84 T n = Err e)
  ∧ ((n < 0)%Z → compute_fib_grid_wgs84 T n = Ok (Wgs84Tuple [] [] [] [])).
Proof.
  intros _ _. split; [|split].
  - intros g k x y e Hg Hx Hy HT.
    destruct (compute_fib_grid_wgs84 T n) as [gw|e'] eqn:Hrun; [|by eexists].
    apply wgs84_values in Hrun as (g' & Hg' & Hall).
    rewrite Hg in Hg'. injection Hg' as <-.
    destruct (Hall k _ _ Hx Hy) as (x' & y' & r & [= <-] & [= <-] & HT' & _).
    congruence.
  - intros Hn e HT.
    destruct (compute_fib_grid_slots n Hn) as
      (g & Hrun & _ & _ & _ & _ & Hval).
    unfold compute_fib_grid_wgs84. rewrite Hrun. cbn.
    destruct (Hval 0%Z) as [Ha Ho]; [lia|].
    destruct (lat g) as [|a la]; [discriminate|].
    destruct (lon g) as [|o lo]; [discriminate|].
    cbn in Ha, Ho. injection Ha as ->. injection Ho as ->.
    cbn. unfold wgs84_body at 1. cbn. by rewrite HT.
  - intros Hn. unfold compute_fib_grid_wgs84.
    by rewrite (compute_fib_grid_negative n Hn).
Qed.

Lemma wgs84_transform_failure_propagates_witness :
  (- 2 ^ 63 < 1)%Z ∧ (2 * 1 + 1 < 2 ^ 63)%Z ∧ (0 ≤ 1)%Z
  ∧ (∀ x y : R, (λ _ _ : R, @Err (R * R) (ExternalError "ProjError")) x y
                = Err (ExternalError "ProjError"))
  ∧ compute_fib_grid_wgs84 (λ _ _, Err (ExternalError "ProjError")) 1
      = Err (ExternalError "ProjError").
Proof.
  split; [reflexivity|]. split; [reflexivity|]. split; [lia|]. split; [done|].
  apply (proj1 (proj2 (wgs84_transform_failure_propagates
           (λ _ _, Err (ExternalError "ProjError")) 1
           ltac:(reflexivity) ltac:(reflexivity)))); [lia|done].
Defined.

End ReprojectionMore.

(** * Further properties of realization.py *)

Section RealizationMore.
Import PyArr Realization Props More.

(** Without a cached file the URL table is consulted before anything is
    validated. *)
Lemma read_grid_file_absent_unknown_key (n : Z) (geodatum sort_order : string)
    (w : world) :
  files w !! grid_filename n geodatum = None →
  DATA_URL !! data_url_key n geodatum = None →
  read_grid_file n geodatum sort_order w
    = (Err (KeyError (data_url_key n geodatum)),
       World (files w) (remote w)
         (events w ++
            [Warn "You are about to download the fibonacci grid file: {filename.name}";
             Mkdir])).
Proof.
  intros Hfile Hkey.
  cbv [read_grid_file mbind io_mbind io_bind file_exists mret io_mret
       io_ret raise lift open_dataset emit urlretrieve].
  rewrite Hfile.
  rewrite bool_decide_eq_false_2 by (by intros [? ?]).
  cbn [negb files remote events]. rewrite Hkey. cbn [of_option].
  by rewrite <- app_assoc.
Qed.

Lemma read_grid_file_absent_fetch (n : Z) (geodatum sort_order url : string)
    (w : world) (fp : dataset) :
  files w !! grid_filename n geodatum = None →
  DATA_URL !! data_url_key n geodatum = Some url →
  remote w !! url = Some fp →
  geodatum ∈ ["sphere"; "WGS84"] →
  sort_order ∈ ["none"; "latband"] →
  read_grid_file n geodatum sort_order w
    = (parse_dataset fp sort_order,
       World (<[grid_filename n geodatum := fp]> (files w)) (remote w)
         (events w ++ fetch_events url (grid_filename n geodatum))).
Proof.
  intros Hfile Hkey Hremote Hgeo Hsort.
  cbv [read_grid_file mbind io_mbind io_bind file_exists mret io_mret
       io_ret raise lift open_dataset emit urlretrieve].
  rewrite Hfile.
  rewrite bool_decide_eq_false_2 by (by intros [? ?]).
  cbn [negb files remote events]. rewrite Hkey. cbn [of_option].
  rewrite Hremote. cbn [files remote events].
  rewrite bool_decide_eq_false_2 by (by intros []).
  rewrite bool_decide_eq_false_2 by (by intros []).
  cbn [files]. rewrite lookup_insert_eq. cbn [of_option].
  unfold parse_dataset.
  unfold fetch_events. rewrite <- !app_assoc. cbn [app].
  destruct (read_variables fp sort_order) as [[[[[lon lat] cell] gpi] ml]|e];
    [|reflexivity].
  cbn. destruct (fromarrays ml metadata_fields); reflexivity.
Qed.

(** X8. First use: with the artifact not in the cache, its URL in the
    table and the remote store serving it, [read_grid_file] with valid
    arguments warns, creates the directory and fetches, in that order,
    stores the artifact under its cache name and returns what it parses
    to.  A later call, with either sort order, finds the file, has no
    effect on the world and parses the same artifact. *)
Theorem first_use_fetches_once (n : Z) (geodatum sort_order url : string)
    (w : world) (fp : dataset) :
  files w !! grid_filename n geodatum = None →
  DATA_URL !! data_url_key n geodatum = Some url →
  remote w !! url = Some fp →
  geodatum ∈ ["sphere"; "WGS84"] →
  sort_order ∈ ["none"; "latband"] →
  ∃ w1 : world,
    read_grid_file n geodatum sort_order w = (parse_dataset fp sort_order, w1)
    ∧ files w1 = <[grid_filename n geodatum := fp]> (files w)
    ∧ remote w1 = remote w
    ∧ events w1 = events w ++ fetch_events url (grid_filename n geodatum)
    ∧ ∀ sort_order2, sort_order2 ∈ ["none"; "latband"] →
        read_grid_file n geodatum sort_order2 w1
          = (parse_dataset fp sort_order2, w1).
Proof.
  intros Hfile Hkey Hremote Hgeo Hsort.
  eexists. split.
  - by apply read_grid_file_absent_fetch.
  - cbn. do 3 (split; [done|]). intros s2 Hs2.
    apply read_grid_file_cached; [|done..]. cbn. apply lookup_insert_eq.
Qed.

Lemma first_use_fetches_once_witness :
  files Samples.fresh_world !! grid_filename 430000 "WGS84" = None
  ∧ DATA_URL !! data_url_key 430000 "WGS84" = Some Samples.url_wgs84_n430000
  ∧ remote Samples.fresh_world !! Samples.url_wgs84_n430000
      = Some Samples.small_dataset
  ∧ ∃ w1 : world,
    read_grid_file 430000 "WGS84" "latband" Samples.fresh_world
      = (parse_dataset Samples.small_dataset "latband", w1)
    ∧ files w1 = <[grid_filename 430000 "WGS84" := Samples.small_dataset]>
                   (files Samples.fresh_world)
    ∧ remote w1 = remote Samples.fresh_world
    ∧ events w1 = events Samples.fresh_world
                  ++ fetch_events Samples.url_wgs84_n430000
                       (grid_filename 430000 "WGS84")
    ∧ ∀ sort_order2, sort_order2 ∈ ["none"; "latband"] →
        read_grid_file 430000 "WGS84" sort_order2 w1
          = (parse_dataset Samples.small_dataset sort_order2, w1).
Proof.
  split; [vm_compute; reflexivity|]. split; [vm_compute; reflexivity|].
  split; [vm_compute; reflexivity|].
  apply (first_use_fetches_once 430000 "WGS84" "latband"
           Samples.url_wgs84_n430000 Samples.fresh_world
           Samples.small_dataset);
    try (vm_compute; reflexivity); repeat constructor.
Defined.

Lemma resolution_n_values (res : Q) (n : Z) :
  resolution_n res = Ok n → n = 6600000%Z ∨ n = 1650000%Z ∨ n = 430000%Z.
Proof.
  unfold resolution_n.
  destruct (Qeq_bool res (25 # 4)); [intros [= <-]; auto|].
  destruct (Qeq_bool res (25 # 2)); [intros [= <-]; auto|].
  destruct (Qeq_bool res (25 # 1)); [intros [= <-]; auto|discriminate].
Qed.

(** X9. The URL table has an entry for every grid the two classes can
    ask for: for each supported resolution and each valid geodatum the
    key is present, and the URL is the release directory followed by the
    very name the file gets in the cache. *)
Theorem data_url_covers_supported_grids (res : Q) (n : Z) (geodatum : string) :
  resolution_n res = Ok n →
  geodatum ∈ ["sphere"; "WGS84"] →
  DATA_URL !! data_url_key n geodatum
    = Some (release_prefix +:+ grid_filename n geodatum).
Proof.
  intros Hres Hgeo.
  apply resolution_n_values in Hres.
  apply elem_of_cons in Hgeo as [->|Hgeo];
    [|apply elem_of_cons in Hgeo as [->|Hgeo];
      [|by apply elem_of_nil in Hgeo]];
  destruct Hres as [->|[->| ->]]; vm_compute; reflexivity.
Qed.

Lemma data_url_covers_supported_grids_witness :
  resolution_n (25 # 2) = Ok 1650000%Z
  ∧ DATA_URL !! data_url_key 1650000 "sphere"
    = Some (release_prefix +:+ grid_filename 1650000 "sphere").
Proof.
  split; [reflexivity|].
  apply (data_url_covers_supported_grids (25 # 2) 1650000 "sphere");
    [reflexivity|repeat constructor].
Defined.

(** X10. Called with a pair [(n, geodatum)] that has no cached file and no
    entry in the URL table, [read_grid_file] raises [KeyError] with the
    table key, whatever the sort order; it has warned and created the
    cache directory by then, and has fetched nothing. *)
Theorem unknown_grid_raises_key_error (n : Z) (geodatum sort_order : string)
    (w : world) :
  files w !! grid_filename n geodatum = None →
  DATA_URL !! data_url_key n geodatum = None →
  ∃ w1 : world,
    read_grid_file n geodatum sort_order w
      = (Err (KeyError (data_url_key n geodatum)), w1)
    ∧ files w1 = files w
    ∧ remote w1 = remote w
    ∧ events w1 = events w ++
        [Warn "You are about to download the fibonacci grid file: {filename.name}";
         Mkdir].
Proof.
  intros Hfile Hkey. eexists. split.
  - by apply read_grid_file_absent_unknown_key.
  - done.
Qed.

Lemma unknown_grid_raises_key_error_witness :
  files Samples.fresh_world !! grid_filename 1000 "WGS84" = None
  ∧ DATA_URL !! data_url_key 1000 "WGS84" = None
  ∧ ∃ w1 : world,
    read_grid_file 1000 "WGS84" "latband" Samples.fresh_world
      = (Err (KeyError (data_url_key 1000 "WGS84")), w1)
    ∧ files w1 = files Samples.fresh_world
    ∧ remote w1 = remote Samples.fresh_world
    ∧ events w1 = events Samples.fresh_world ++
        [Warn "You are about to download the fibonacci grid file: {filename.name}";
         Mkdir].
Proof.
  split; [vm_compute; reflexivity|]. split; [vm_compute; reflexivity|].
  apply (unknown_grid_raises_key_error 1000 "WGS84" "latband"
           Samples.fresh_world); vm_compute; reflexivity.
Defined.

Lemma lower_grid_filename (n : Z) (g1 g2 : string) :
  lower g1 = lower g2 → grid_filename n g1 = grid_filename n g2.
Proof. intros H. unfold grid_filename. by rewrite H. Qed.

Lemma read_grid_file_cached_bad_geodatum
    (n : Z) (geodatum sort_order : string) (w : world) (fp : dataset) :
  files w !! grid_filename n geodatum = Some fp →
  geodatum ∉ ["sphere"; "WGS84"] →
  read_grid_file n geodatum sort_order w
    = (Err (ValueError ("Geodatum unknown: " +:+ geodatum)), w).
Proof.
  intros Hfile Hgeo.
  cbv [read_grid_file mbind io_mbind io_bind file_exists mret io_mret
       io_ret raise lift open_dataset].
  rewrite Hfile. rewrite bool_decide_eq_true_2 by eauto. cbn [negb].
  by rewrite bool_decide_eq_true_2 by done.
Qed.

Lemma read_grid_file_cached_bad_sort_order
    (n : Z) (geodatum sort_order : string) (w : world) (fp : dataset) :
  files w !! grid_filename n geodatum = Some fp →
  geodatum ∈ ["sphere"; "WGS84"] →
  sort_order ∉ ["none"; "latband"] →
  read_grid_file n geodatum sort_order w
    = (Err (ValueError ("Grid point sort order unknown: " +:+ sort_order)), w).
Proof.
  intros Hfile Hgeo Hsort.
  cbv [read_grid_file mbind io_mbind io_bind file_exists mret io_mret
       io_ret raise lift open_dataset].
  rewrite Hfile. rewrite bool_decide_eq_true_2 by eauto. cbn [negb].
  rewrite bool_decide_eq_false_2 by (by intros []).
  by rewrite bool_decide_eq_true_2 by done.
Qed.

(** X11. With the file in the cache, invalid arguments are rejected
    without any effect: an invalid geodatum gives
    [ValueError("Geodatum unknown: ...")] whatever the sort order, a valid
    geodatum with an invalid sort order gives
    [ValueError("Grid point sort order unknown: ...")].  The cache name
    uses the lower-cased geodatum, so a spelling like ["wgs84"] finds the
    file of ["WGS84"] and is rejected all the same. *)
Theorem cached_file_validation (n : Z) (geodatum sort_order : string)
    (w : world) (fp : dataset) :
  files w !! grid_filename n geodatum = Some fp →
  (geodatum ∉ ["sphere"; "WGS84"] →
     read_grid_file n geodatum sort_order w
       = (Err (ValueError ("Geodatum unknown: " +:+ geodatum)), w))
  ∧ (geodatum ∈ ["sphere"; "WGS84"] → sort_order ∉ ["none"; "latband"] →
     read_grid_file n geodatum sort_order w
       = (Err (ValueError ("Grid point sort order unknown: " +:+ sort_order)),
          w))
  ∧ (∀ g2, lower g2 = lower geodatum →
       files w !! grid_filename n g2 = Some fp).
Proof.
  intros Hfile. split; [|split].
  - intros Hgeo. by eapply read_grid_file_cached_bad_geodatum.
  - intros Hgeo Hsort. by eapply read_grid_file_cached_bad_sort_order.
  - intros g2 Hg2. by rewrite (lower_grid_filename n g2 geodatum Hg2).
Qed.

Lemma cached_file_validation_witness :
  files Samples.cached_world !! grid_filename 430000 "wgs84"
    = Some Samples.small_dataset
  ∧ ("wgs84" ∉ ["sphere"; "WGS84"])
  ∧ read_grid_file 430000 "wgs84" "none" Samples.cached_world
      = (Err (ValueError ("Geodatum unknown: " +:+ "wgs84")),
         Samples.cached_world).
Proof.
  assert (Hf : files Samples.cached_world !! grid_filename 430000 "wgs84"
               = Some Samples.small_dataset) by (vm_compute; reflexivity).
  assert (Hg : "wgs84" ∉ ["sphere"; "WGS84"]).
  { intros H. repeat (apply elem_of_cons in H as [H|H]; [discriminate H|]).
    by apply elem_of_nil in H. }
  split; [exact Hf|]. split; [exact Hg|].
  exact (proj1 (cached_file_validation 430000 "wgs84" "none"
                  Samples.cached_world Samples.small_dataset Hf) Hg).
Defined.

Lemma parse_dataset_missing_lon (fp : dataset) (sort_order : string) :
  fp !! "lon" = None → parse_dataset fp sort_order = Err (KeyError "lon").
Proof.
  intros H. unfold parse_dataset, read_variables, variable. by rewrite H.
Qed.

Lemma parse_dataset_missing_sorting (fp : dataset)
    (lon0 lat0 cell0 gpi0 : list scalar) :
  fp !! "lon" = Some lon0 → fp !! "lat" = Some lat0 →
  fp !! "cell" = Some cell0 → fp !! "gpi" = Some gpi0 →
  fp !! "latband_sorting" = None →
  parse_dataset fp "latband" = Err (KeyError "latband_sorting").
Proof.
  intros Hlon Hlat Hcell Hgpi Hidx.
  unfold parse_dataset, read_variables, variable.
  rewrite Hlon, Hlat, Hcell, Hgpi.
  cbn [of_option mbind result_bind rbind].
  rewrite bool_decide_eq_true_2 by discriminate.
  change ("latband" +:+ "_sorting") with "latband_sorting".
  by rewrite Hidx.
Qed.

(** X12. A cached artifact that lacks a variable makes [read_grid_file]
    raise [KeyError] with the variable's name and no effect: ["lon"] is
    asked for first, and with [sort_order = "latband"] a file that has the
    four coordinate variables but no ["latband_sorting"] raises
    [KeyError("latband_sorting")]. *)
Theorem missing_variable_raises_key_error (n : Z) (geodatum : string)
    (w : world) (fp : dataset) :
  files w !! grid_filename n geodatum = Some fp →
  geodatum ∈ ["sphere"; "WGS84"] →
  (fp !! "lon" = None →
     ∀ sort_order, sort_order ∈ ["none"; "latband"] →
       read_grid_file n geodatum sort_order w = (Err (KeyError "lon"), w))
  ∧ (is_Some (fp !! "lon") → is_Some (fp !! "lat") →
     is_Some (fp !! "cell") → is_Some (fp !! "gpi") →
     fp !! "latband_sorting" = None →
     read_grid_file n geodatum "latband" w
       = (Err (KeyError "latband_sorting"), w)).
Proof.
  intros Hfile Hgeo. split.
  - intros Hlon s Hs.
    rewrite (read_grid_file_cached n geodatum s w fp Hfile Hgeo Hs).
    by rewrite parse_dataset_missing_lon.
  - intros [lon0 Hlon] [lat0 Hlat] [cell0 Hcell] [gpi0 Hgpi] Hidx.
    rewrite (read_grid_file_cached n geodatum "latband" w fp Hfile Hgeo)
      by (repeat constructor).
    by rewrite (parse_dataset_missing_sorting fp lon0 lat0 cell0 gpi0).
Qed.

Lemma missing_variable_raises_key_error_witness :
  files unsorted_world !! grid_filename 430000 "sphere" = Some unsorted_dataset
  ∧ unsorted_dataset !! "latband_sorting" = None
  ∧ read_grid_file 430000 "sphere" "latband" unsorted_world
    = (Err (KeyError "latband_sorting"), unsorted_world).
Proof.
  assert (Hf : files unsorted_world !! grid_filename 430000 "sphere"
               = Some unsorted_dataset) by (vm_compute; reflexivity).
  assert (Hg : "sphere" ∈ ["sphere"; "WGS84"]) by (repeat constructor).
  split; [exact Hf|]. split; [vm_compute; reflexivity|].
  apply (proj2 (missing_variable_raises_key_error 430000 "sphere"
                  unsorted_world unsorted_dataset Hf Hg));
    try (vm_compute; by eexists); vm_compute; reflexivity.
Defined.

(** X13. With [sort_order = "none"] the sorting array is not read: the
    result is the same whether the artifact has a ["latband_sorting"]
    variable, has another one, or has none. *)
Theorem none_ignores_sorting (fp : dataset) (idx : list scalar) :
  parse_dataset (<["latband_sorting" := idx]> fp) "none"
    = parse_dataset fp "none"
  ∧ parse_dataset (delete "latband_sorting" fp) "none"
    = parse_dataset fp "none".
Proof.
  unfold parse_dataset, read_variables, variable, metadata_fields.
  cbn [for_each].
  split.
  - by rewrite !lookup_insert_ne by done.
  - by rewrite !lookup_delete_ne by done.
Qed.

Lemma take_error_is_index_error {A} (a : list A) (zs : list Z) (e : exn) :
  take a zs = Err e → e = IndexError.
Proof.
  unfold take. generalize (@nil A) at 2.
  induction zs as [|z zs IH]; intros acc; cbn; [discriminate|].
  destruct (getitem a z) as [x|e'] eqn:Hx; cbn.
  - apply IH.
  - intros [= <-]. unfold getitem in Hx.
    destruct (py_index (length a) z) as [k|]; cbn in Hx;
      [|by injection Hx as <-].
    destruct (a !! k); cbn in Hx; [discriminate|by injection Hx as <-].
Qed.

Lemma take_out_of_range {A} (a : list A) (zs : list Z) (z : Z) :
  z ∈ zs →
  ¬ (- Z.of_nat (length a) ≤ z < Z.of_nat (length a))%Z →
  take a zs = Err IndexError.
Proof.
  intros Hz Hout.
  destruct (take a zs) as [r|e] eqn:Ht.
  - exfalso. apply take_inv in Ht.
    apply list_elem_of_lookup in Hz as [k Hk].
    destruct (Forall2_lookup_r _ _ _ _ _ Ht Hk) as (x & _ & Hget).
    unfold getitem, py_index in Hget.
    repeat case_bool_decide; try lia. discriminate.
  - by rewrite (take_error_is_index_error a zs e Ht).
Qed.

(** X14. A sorting array that holds an index outside [[-N, N)], with [N]
    the length of the stored [lon] array, makes the load with
    [sort_order = "latband"] raise [IndexError] without effect. *)
Theorem sorting_out_of_range_raises_index_error
    (n : Z) (geodatum : string) (w : world) (fp : dataset)
    (lon0 lat0 cell0 gpi0 : list scalar) (zs : list Z) (z : Z) :
  files w !! grid_filename n geodatum = Some fp →
  geodatum ∈ ["sphere"; "WGS84"] →
  fp !! "lon" = Some lon0 → fp !! "lat" = Some lat0 →
  fp !! "cell" = Some cell0 → fp !! "gpi" = Some gpi0 →
  fp !! "latband_sorting" = Some (SInt <$> zs) →
  z ∈ zs →
  ¬ (- Z.of_nat (length lon0) ≤ z < Z.of_nat (length lon0))%Z →
  read_grid_file n geodatum "latband" w = (Err IndexError, w).
Proof.
  intros Hfile Hgeo Hlon Hlat Hcell Hgpi Hidx Hz Hout.
  rewrite (read_grid_file_cached n geodatum "latband" w fp Hfile Hgeo)
    by (repeat constructor).
  f_equal.
  unfold parse_dataset, read_variables, variable.
  rewrite Hlon, Hlat, Hcell, Hgpi.
  cbn [of_option mbind result_bind rbind].
  rewrite bool_decide_eq_true_2 by discriminate.
  change ("latband" +:+ "_sorting") with "latband_sorting".
  rewrite Hidx. cbn [of_option mbind result_bind rbind].
  unfold fancy. rewrite !as_indices_ints.
  cbn [mbind result_bind rbind].
  by rewrite (take_out_of_range lon0 zs z Hz Hout).
Qed.

Lemma sorting_out_of_range_raises_index_error_witness :
  files bad_sorting_world !! grid_filename 430000 "WGS84"
    = Some bad_sorting_dataset
  ∧ bad_sorting_dataset !! "latband_sorting" = Some (SInt <$> [2; 3; 0]%Z)
  ∧ ¬ (- Z.of_nat (length [SFloat 10; SFloat 20; SFloat (-30)]) ≤ 3
       < Z.of_nat (length [SFloat 10; SFloat 20; SFloat (-30)]))%Z
  ∧ read_grid_file 430000 "WGS84" "latband" bad_sorting_world
    = (Err IndexError, bad_sorting_world).
Proof.
  split; [vm_compute; reflexivity|]. split; [vm_compute; reflexivity|].
  split; [cbn; lia|].
  apply (sorting_out_of_range_raises_index_error 430000 "WGS84"
           bad_sorting_world bad_sorting_dataset
           [SFloat 10; SFloat 20; SFloat (-30)]
           [SFloat 0; SFloat 41; SFloat (-41)]
           [SInt 7; SInt 7; SInt 8] [SInt 0; SInt 1; SInt 2]
           [2; 3; 0]%Z 3%Z);
    try (vm_compute; reflexivity).
  - repeat constructor.
  - repeat constructor.
  - cbn. lia.
Defined.

(** The positions [np.nonzero] returns select a subsequence. *)
Lemma gathered_nonzero_sublist {A} (flag : list scalar) :
  ∀ (s : Z) (a r : list A),
    Forall2 (λ x z, a !! Z.to_nat (z - s) = Some x) r (nonzero_from s flag) →
    r `sublist_of` a.
Proof.
  induction flag as [|y flag IH]; intros s a r H; cbn in H.
  - apply Forall2_nil_inv_r in H as ->. apply sublist_nil_l.
  - destruct a as [|x0 a].
    { destruct r as [|x r]; [apply sublist_nil_l|].
      apply Forall2_cons_inv_l in H as (z & l' & Hxz & _ & _).
      by rewrite lookup_nil in Hxz. }
    assert (Hshift : ∀ r',
      Forall2 (λ x z, (x0 :: a) !! Z.to_nat (z - s) = Some x) r'
        (nonzero_from (s + 1) flag) →
      Forall2 (λ x z, a !! Z.to_nat (z - (s + 1)) = Some x) r'
        (nonzero_from (s + 1) flag)).
    { intros r' Hr'.
      apply Forall2_same_length_lookup in Hr' as [Hlen Hl].
      apply Forall2_same_length_lookup. split; [done|].
      intros k x z Hx Hz. specialize (Hl k x z Hx Hz).
      apply list_elem_of_lookup_2 in Hz.
      apply nonzero_from_elem in Hz as [Hz _].
      replace (Z.to_nat (z - s)) with (S (Z.to_nat (z - (s + 1)))) in Hl
        by lia.
      done. }
    destruct (is_nonzero y).
    + apply Forall2_cons_inv_r in H as (x & r' & Hx & Hr' & ->).
      rewrite Z.sub_diag in Hx. cbn in Hx. injection Hx as ->.
      apply sublist_skip. eapply IH. by apply Hshift.
    + apply sublist_cons. eapply IH. by apply Hshift.
Qed.

(** X15. The active arrays of a [FibLandGrid] are subsequences of its full
    arrays: points are dropped, never reordered or repeated. *)
Theorem land_grid_keeps_order
    (res : Q) (geodatum sort_order : string) (w w' : world)
    (o : grid_object) :
  FibLandGrid_init res geodatum sort_order w = (Ok o, w') →
  activegpis (base o) `sublist_of` gpis (base o)
  ∧ activearrlon (base o) `sublist_of` arrlon (base o)
  ∧ activearrlat (base o) `sublist_of` arrlat (base o)
  ∧ activearrcell (base o) `sublist_of` arrcell (base o).
Proof.
  unfold FibLandGrid_init.
  cbv [mbind io_mbind io_bind lift mret io_mret io_ret].
  destruct (resolution_n res) as [n|e]; [|discriminate].
  destruct (read_grid_file n geodatum sort_order w) as [[f|e] w1];
    [|discriminate].
  destruct (field (gf_metadata f) "land_flag") as [flag|e]; [|discriminate].
  unfold CellGrid_init.
  destruct (take (gf_lon f) (nonzero flag)) as [alon|e] eqn:Tlon;
    [|discriminate].
  destruct (take (gf_lat f) (nonzero flag)) as [alat|e] eqn:Tlat;
    [|discriminate].
  destruct (take (gf_cell f) (nonzero flag)) as [acell|e] eqn:Tcell;
    [|discriminate].
  destruct (take (gf_gpi f) (nonzero flag)) as [agpi|e] eqn:Tgpi;
    [|discriminate].
  cbn. intros [= <- <-]. cbn.
  apply take_nonzero_gathered in Tlon, Tlat, Tcell, Tgpi.
  assert (Hsub : ∀ a r : list scalar,
            gathered a (nonzero flag) r → r `sublist_of` a).
  { intros a r Hr. apply (gathered_nonzero_sublist flag 0).
    eapply Forall2_impl; [exact Hr|]. intros x z Hx.
    by rewrite Z.sub_0_r. }
  repeat split; by apply Hsub.
Qed.

Lemma land_grid_keeps_order_witness :
  ∃ o : grid_object,
    FibLandGrid_init 25 "WGS84" "latband" Samples.cached_world
      = (Ok o, Samples.cached_world)
    ∧ activegpis (base o) `sublist_of` gpis (base o)
    ∧ activearrlon (base o) `sublist_of` arrlon (base o)
    ∧ activearrlat (base o) `sublist_of` arrlat (base o)
    ∧ activearrcell (base o) `sublist_of` arrcell (base o).
Proof.
  eexists. split; [vm_compute; reflexivity|].
  eapply (land_grid_keeps_order 25 "WGS84" "latband"
            Samples.cached_world Samples.cached_world).
  vm_compute. reflexivity.
Defined.



(** A call of [read_grid_file] that returns had valid arguments, leaves
    the artifact in the cache and returns what that artifact parses to. *)
Lemma read_grid_file_ok_inv (n : Z) (geodatum sort_order : string)
    (w w' : world) (f : grid_file) :
  read_grid_file n geodatum sort_order w = (Ok f, w') →
  geodatum ∈ ["sphere"; "WGS84"]
  ∧ sort_order ∈ ["none"; "latband"]
  ∧ ∃ fp : dataset,
      files w' !! grid_filename n geodatum = Some fp
      ∧ parse_dataset fp sort_order = Ok f.
Proof.
  destruct (decide (geodatum ∈ ["sphere"; "WGS84"])) as [Hgeo|Hgeo];
  destruct (decide (sort_order ∈ ["none"; "latband"])) as [Hsort|Hsort];
  destruct (files w !! grid_filename n geodatum) as [fp|] eqn:Hfile;
  try (destruct (DATA_URL !! data_url_key n geodatum) as [url|] eqn:Hkey;
       [destruct (remote w !! url) as [fp|] eqn:Hremote|]).
  all: try (rewrite (read_grid_file_cached _ _ _ _ _ Hfile Hgeo Hsort);
            intros [= Hp <-]; eauto 6).
  all: try (rewrite (read_grid_file_absent_fetch _ _ _ _ _ _
                       Hfile Hkey Hremote Hgeo Hsort);
            intros [= Hp <-]; split; [done|]; split; [done|];
            exists fp; split; [apply lookup_insert_eq|done]).
  all: try (rewrite (read_grid_file_absent_unknown_key _ _ _ _ Hfile Hkey);
            discriminate).
  all: try (first
              [rewrite (read_grid_file_cached_bad_geodatum
                          n geodatum sort_order w fp Hfile Hgeo)
              |rewrite (read_grid_file_cached_bad_sort_order
                          n geodatum sort_order w fp Hfile Hgeo Hsort)];
            discriminate).
  all: cbv [read_grid_file mbind io_mbind io_bind file_exists mret io_mret
            io_ret raise lift open_dataset emit urlretrieve];
       rewrite Hfile;
       rewrite bool_decide_eq_false_2 by (by intros [? ?]);
       cbn [negb files remote events]; rewrite Hkey; cbn [of_option];
       rewrite Hremote; cbn [files remote events];
       try discriminate.
  all: try (rewrite (bool_decide_eq_true_2 (geodatum ∉ _)) by done;
            discriminate).
  all: rewrite (bool_decide_eq_false_2 (geodatum ∉ _)) by (by intros []);
       rewrite (bool_decide_eq_true_2 (sort_order ∉ _)) by done;
       discriminate.
Qed.

Lemma as_indices_length (a : list scalar) (zs : list Z) :
  as_indices a = Ok zs → length zs = length a.
Proof.
  revert zs. induction a as [|x a IH]; intros zs; cbn.
  - by intros [= <-].
  - destruct (as_index x); cbn; [|discriminate].
    destruct (as_indices a) as [zs'|]; cbn; [|discriminate].
    intros [= <-]. cbn. by rewrite (IH zs').
Qed.

Lemma fancy_length (a idx r : list scalar) :
  fancy a idx = Ok r → length r = length idx.
Proof.
  unfold fancy. destruct (as_indices idx) as [zs|] eqn:Hzs; cbn;
    [|discriminate].
  intros Ht. apply take_inv, Forall2_length in Ht.
  by rewrite Ht, (as_indices_length idx zs).
Qed.

Lemma parse_dataset_none_inv (fp : dataset) (f : grid_file) :
  parse_dataset fp "none" = Ok f →
  fp !! "lon" = Some (gf_lon f) ∧ fp !! "lat" = Some (gf_lat f)
  ∧ fp !! "cell" = Some (gf_cell f) ∧ fp !! "gpi" = Some (gf_gpi f)
  ∧ (gf_metadata f).*1 = metadata_fields
  ∧ Forall (λ c, fp !! c.1 = Some c.2) (gf_metadata f)
  ∧ ∃ N : nat, Forall (λ c, length c.2 = N) (gf_metadata f).
Proof.
  unfold parse_dataset, read_variables, variable, metadata_fields.
  destruct (fp !! "lon") as [lon0|]; [|discriminate].
  destruct (fp !! "lat") as [lat0|]; [|discriminate].
  destruct (fp !! "cell") as [cell0|]; [|discriminate].
  destruct (fp !! "gpi") as [gpi0|]; [|discriminate].
  cbn [of_option mbind result_bind rbind].
  rewrite bool_decide_eq_false_2 by (intros H; by apply H).
  cbn [for_each mbind result_bind rbind].
  destruct (fp !! "land_frac_fw") as [m1|] eqn:H1; [|discriminate].
  cbn [of_option mbind result_bind rbind].
  destruct (fp !! "land_frac_hw") as [m2|] eqn:H2; [|discriminate].
  cbn [of_option mbind result_bind rbind].
  destruct (fp !! "land_mask_hw") as [m3|] eqn:H3; [|discriminate].
  cbn [of_option mbind result_bind rbind].
  destruct (fp !! "land_mask_fw") as [m4|] eqn:H4; [|discriminate].
  cbn [of_option mbind result_bind rbind].
  destruct (fp !! "land_flag") as [m5|] eqn:H5; [|discriminate].
  cbn [of_option mbind result_bind rbind app].
  unfold fromarrays. cbn [forallb].
  destruct (_ && _) eqn:E; [|discriminate].
  intros [= <-]. cbn.
  do 5 (split; [done|]). split; [by repeat constructor|].
  exists (length m1).
  rewrite !andb_true_iff, !Nat.eqb_eq in E.
  destruct E as (_ & E2 & E3 & E4 & E5 & _).
  by repeat constructor.
Qed.

Lemma parse_dataset_latband_inv (fp : dataset) (f : grid_file) :
  parse_dataset fp "latband" = Ok f →
  ∃ idx : list scalar,
    fp !! "latband_sorting" = Some idx
    ∧ length (gf_lon f) = length idx ∧ length (gf_lat f) = length idx
    ∧ length (gf_cell f) = length idx ∧ length (gf_gpi f) = length idx
    ∧ (gf_metadata f).*1 = metadata_fields
    ∧ Forall (λ c, length c.2 = length idx) (gf_metadata f).
Proof.
  unfold parse_dataset, read_variables, variable, metadata_fields.
  destruct (fp !! "lon") as [lon0|]; [|discriminate].
  destruct (fp !! "lat") as [lat0|]; [|discriminate].
  destruct (fp !! "cell") as [cell0|]; [|discriminate].
  destruct (fp !! "gpi") as [gpi0|]; [|discriminate].
  cbn [of_option mbind result_bind rbind].
  rewrite bool_decide_eq_true_2 by discriminate.
  change ("latband" +:+ "_sorting") with "latband_sorting".
  destruct (fp !! "latband_sorting") as [idx|]; [|discriminate].
  cbn [of_option mbind result_bind rbind].
  destruct (fancy lon0 idx) as [lon1|] eqn:Flon; [|discriminate].
  cbn [of_option mbind result_bind rbind].
  destruct (fancy lat0 idx) as [lat1|] eqn:Flat; [|discriminate].
  cbn [of_option mbind result_bind rbind].
  destruct (fancy cell0 idx) as [cell1|] eqn:Fcell; [|discriminate].
  cbn [of_option mbind result_bind rbind].
  destruct (fancy gpi0 idx) as [gpi1|] eqn:Fgpi; [|discriminate].
  cbn [for_each of_option mbind result_bind rbind].
  destruct (fp !! "land_frac_fw") as [m1|]; [|discriminate].
  cbn [of_option mbind result_bind rbind].
  destruct (fancy m1 idx) as [s1|] eqn:F1; [|discriminate].
  cbn [of_option mbind result_bind rbind].
  destruct (fp !! "land_frac_hw") as [m2|]; [|discriminate].
  cbn [of_option mbind result_bind rbind].
  destruct (fancy m2 idx) as [s2|] eqn:F2; [|discriminate].
  cbn [of_option mbind result_bind rbind].
  destruct (fp !! "land_mask_hw") as [m3|]; [|discriminate].
  cbn [of_option mbind result_bind rbind].
  destruct (fancy m3 idx) as [s3|] eqn:F3; [|discriminate].
  cbn [of_option mbind result_bind rbind].
  destruct (fp !! "land_mask_fw") as [m4|]; [|discriminate].
  cbn [of_option mbind result_bind rbind].
  destruct (fancy m4 idx) as [s4|] eqn:F4; [|discriminate].
  cbn [of_option mbind result_bind rbind].
  destruct (fp !! "land_flag") as [m5|]; [|discriminate].
  cbn [of_option mbind result_bind rbind].
  destruct (fancy m5 idx) as [s5|] eqn:F5; [|discriminate].
  cbn [of_option mbind result_bind rbind app].
  unfold fromarrays. cbn [forallb].
  destruct (_ && _); [|discriminate].
  intros [= <-]. cbn.
  apply fancy_length in Flon, Flat, Fcell, Fgpi, F1, F2, F3, F4, F5.
  exists idx. do 6 (split; [done|]). by repeat constructor.
Qed.

(** X17. What a successful [read_grid_file] guarantees: the arguments were
    valid, the artifact is in the cache afterwards, and the metadata has
    the five fields in their fixed order with columns of one length.
    With [sort_order = "none"] the coordinate arrays and metadata columns
    are the stored variables, unchanged; with ["latband"] the four
    coordinate arrays and the metadata columns all have the length of the
    sorting array. *)
Theorem loaded_grid_shape (n : Z) (geodatum sort_order : string)
    (w w' : world) (f : grid_file) :
  read_grid_file n geodatum sort_order w = (Ok f, w') →
  geodatum ∈ ["sphere"; "WGS84"]
  ∧ sort_order ∈ ["none"; "latband"]
  ∧ (gf_metadata f).*1 = metadata_fields
  ∧ (∃ N : nat, Forall (λ c, length c.2 = N) (gf_metadata f))
  ∧ ∃ fp : dataset,
      files w' !! grid_filename n geodatum = Some fp
      ∧ (sort_order = "none" →
           fp !! "lon" = Some (gf_lon f) ∧ fp !! "lat" = Some (gf_lat f)
           ∧ fp !! "cell" = Some (gf_cell f) ∧ fp !! "gpi" = Some (gf_gpi f)
           ∧ Forall (λ c, fp !! c.1 = Some c.2) (gf_metadata f))
      ∧ (sort_order = "latband" →
           ∃ idx : list scalar,
             fp !! "latband_sorting" = Some idx
             ∧ length (gf_lon f) = length idx
             ∧ length (gf_lat f) = length idx
             ∧ length (gf_cell f) = length idx
             ∧ length (gf_gpi f) = length idx
             ∧ Forall (λ c, length c.2 = length idx) (gf_metadata f)).
Proof.
  intros Hrun.
  apply read_grid_file_ok_inv in Hrun as (Hgeo & Hsort & fp & Hfile & Hparse).
  split; [done|]. split; [done|].
  apply elem_of_cons in Hsort as [->|Hsort];
    [|apply elem_of_cons in Hsort as [->|Hsort];
      [|by apply elem_of_nil in Hsort]].
  - apply parse_dataset_none_inv in Hparse
      as (Hlon & Hlat & Hcell & Hgpi & Hnames & Hcols & HN).
    split; [done|]. split; [done|].
    exists fp. split; [done|]. split; [done|]. discriminate.
  - apply parse_dataset_latband_inv in Hparse
      as (idx & Hidx & Llon & Llat & Lcell & Lgpi & Hnames & Hcols).
    split; [done|]. split; [by exists (length idx)|].
    exists fp. split; [done|]. split; [discriminate|].
    intros _. by exists idx.
Qed.

Lemma loaded_grid_shape_witness :
  ∃ (f : grid_file) (w' : world),
    read_grid_file 430000 "WGS84" "latband" Samples.fresh_world = (Ok f, w')
    ∧ ("WGS84" ∈ ["sphere"; "WGS84"])
    ∧ ("latband" ∈ ["none"; "latband"])
    ∧ (gf_metadata f).*1 = metadata_fields
    ∧ (∃ N : nat, Forall (λ c, length c.2 = N) (gf_metadata f))
    ∧ ∃ fp : dataset,
        files w' !! grid_filename 430000 "WGS84" = Some fp
        ∧ ("latband" = "none" →
             fp !! "lon" = Some (gf_lon f) ∧ fp !! "lat" = Some (gf_lat f)
             ∧ fp !! "cell" = Some (gf_cell f)
             ∧ fp !! "gpi" = Some (gf_gpi f)
             ∧ Forall (λ c, fp !! c.1 = Some c.2) (gf_metadata f))
        ∧ ("latband" = "latband" →
             ∃ idx : list scalar,
               fp !! "latband_sorting" = Some idx
               ∧ length (gf_lon f) = length idx
               ∧ length (gf_lat f) = length idx
               ∧ length (gf_cell f) = length idx
               ∧ length (gf_gpi f) = length idx
               ∧ Forall (λ c, length c.2 = length idx) (gf_metadata f)).
Proof.
  eexists _, _. split; [vm_compute; reflexivity|].
  eapply (loaded_grid_shape 430000 "WGS84" "latband" Samples.fresh_world).
  vm_compute. reflexivity.
Defined.

Lemma field_land_flag (md : list (string * list scalar)) :
  md.*1 = metadata_fields → ∃ flag, field md "land_flag" = Ok flag.
Proof.
  unfold metadata_fields.
  destruct md as [|[k1 c1] [|[k2 c2] [|[k3 c3] [|[k4 c4] [|[k5 c5] [|? ?]]]]]];
    cbn; try discriminate.
  intros [= -> -> -> -> ->]. exists c5. reflexivity.
Qed.

Lemma nonzero_in_range (flag : list scalar) :
  Forall (λ z, 0 ≤ z < Z.of_nat (length flag))%Z (nonzero flag).
Proof.
  apply Forall_forall. intros z Hz. unfold nonzero in Hz.
  apply nonzero_from_elem in Hz as (Hz & x & Hx & _).
  apply lookup_lt_Some in Hx. lia.
Qed.

(** X18. When [FibGrid] loads, its metadata has a [land_flag] column, and
    [FibLandGrid] with the same arguments can fail only with
    [IndexError]; it loads too, with the same metadata and full arrays,
    as soon as none of the four coordinate arrays is shorter than
    [land_flag]. *)
Theorem land_grid_loads_with_full_grid
    (res : Q) (geodatum sort_order : string) (w w' : world)
    (full : grid_object) :
  FibGrid_init res geodatum sort_order w = (Ok full, w') →
  ∃ flag : list scalar,
    field (metadata full) "land_flag" = Ok flag
    ∧ (∀ e, (FibLandGrid_init res geodatum sort_order w).1 = Err e →
            e = IndexError)
    ∧ ((length flag ≤ length (arrlon (base full)))%nat →
       (length flag ≤ length (arrlat (base full)))%nat →
       (length flag ≤ length (arrcell (base full)))%nat →
       (length flag ≤ length (gpis (base full)))%nat →
       ∃ o : grid_object,
         FibLandGrid_init res geodatum sort_order w = (Ok o, w')
         ∧ metadata o = metadata full
         ∧ arrlon (base o) = arrlon (base full)
         ∧ arrlat (base o) = arrlat (base full)
         ∧ arrcell (base o) = arrcell (base full)
         ∧ gpis (base o) = gpis (base full)
         ∧ subset (base o) = Some (nonzero flag)).
Proof.
  unfold FibLandGrid_init, FibGrid_init.
  cbv [mbind io_mbind io_bind lift mret io_mret io_ret].
  destruct (resolution_n res) as [n|e]; [|discriminate].
  destruct (read_grid_file n geodatum sort_order w) as [[f|e] w1] eqn:Hread;
    [|discriminate].
  cbn. intros [= <- <-]. cbn.
  assert (Hnames : (gf_metadata f).*1 = metadata_fields).
  { apply read_grid_file_ok_inv in Hread as (_ & Hsort & fp & _ & Hparse).
    apply elem_of_cons in Hsort as [->|Hsort];
      [|apply elem_of_cons in Hsort as [->|Hsort];
        [|by apply elem_of_nil in Hsort]].
    - by apply parse_dataset_none_inv in Hparse as (_ & _ & _ & _ & ? & _).
    - by apply parse_dataset_latband_inv in Hparse
        as (? & _ & _ & _ & _ & _ & ? & _). }
  destruct (field_land_flag _ Hnames) as [flag Hflag].
  exists flag. split; [done|]. rewrite Hflag. split.
  - intros e. unfold CellGrid_init.
    destruct (take (gf_lon f) (nonzero flag)) as [?|e1] eqn:T1; cbn;
      [|intros [= <-]; by eapply take_error_is_index_error].
    destruct (take (gf_lat f) (nonzero flag)) as [?|e2] eqn:T2; cbn;
      [|intros [= <-]; by eapply take_error_is_index_error].
    destruct (take (gf_cell f) (nonzero flag)) as [?|e3] eqn:T3; cbn;
      [|intros [= <-]; by eapply take_error_is_index_error].
    destruct (take (gf_gpi f) (nonzero flag)) as [?|e4] eqn:T4; cbn;
      [discriminate|intros [= <-]; by eapply take_error_is_index_error].
  - intros Llon Llat Lcell Lgpi.
    pose proof (nonzero_in_range flag) as Hr.
    assert (Htake : ∀ a : list scalar, (length flag ≤ length a)%nat →
              ∃ r, take a (nonzero flag) = Ok r).
    { intros a Ha. destruct (take_in_range a (nonzero flag)) as (r & Hr' & _).
      - eapply Forall_impl; [exact Hr|]. intros z Hz. cbn in Hz. lia.
      - by exists r. }
    destruct (Htake _ Llon) as [r1 T1]. destruct (Htake _ Llat) as [r2 T2].
    destruct (Htake _ Lcell) as [r3 T3]. destruct (Htake _ Lgpi) as [r4 T4].
    unfold CellGrid_init. rewrite T1, T2, T3, T4. cbn.
    eexists. split; [reflexivity|]. done.
Qed.

Lemma land_grid_loads_with_full_grid_witness :
  ∃ full : grid_object,
    FibGrid_init 25 "WGS84" "none" Samples.cached_world
      = (Ok full, Samples.cached_world)
    ∧ ∃ flag : list scalar,
    field (metadata full) "land_flag" = Ok flag
    ∧ (∀ e, (FibLandGrid_init 25 "WGS84" "none" Samples.cached_world).1
              = Err e → e = IndexError)
    ∧ ((length flag ≤ length (arrlon (base full)))%nat →
       (length flag ≤ length (arrlat (base full)))%nat →
       (length flag ≤ length (arrcell (base full)))%nat →
       (length flag ≤ length (gpis (base full)))%nat →
       ∃ o : grid_object,
         FibLandGrid_init 25 "WGS84" "none" Samples.cached_world
           = (Ok o, Samples.cached_world)
         ∧ metadata o = metadata full
         ∧ arrlon (base o) = arrlon (base full)
         ∧ arrlat (base o) = arrlat (base full)
         ∧ arrcell (base o) = arrcell (base full)
         ∧ gpis (base o) = gpis (base full)
         ∧ subset (base o) = Some (nonzero flag)).
Proof.
  eexists. split; [vm_compute; reflexivity|].
  eapply (land_grid_loads_with_full_grid 25 "WGS84" "none"
            Samples.cached_world Samples.cached_world).
  vm_compute. reflexivity.
Defined.

(** Indexing by the non-zero positions of [flag] keeps the elements whose
    flag is non-zero. *)
Lemma gathered_nonzero_filter {A} (flag : list scalar) :
  ∀ (s : Z) (a r : list A),
    length a = length flag →
    Forall2 (λ x z, a !! Z.to_nat (z - s) = Some x) r (nonzero_from s flag) →
    r = (filter (λ p, is_nonzero p.2 = true) (zip a flag)).*1.
Proof.
  induction flag as [|y flag IH]; intros s a r Hlen H; cbn in H.
  - apply Forall2_nil_inv_r in H as ->. by destruct a.
  - destruct a as [|x0 a]; [discriminate|]. cbn in Hlen.
    assert (Hshift : ∀ r',
      Forall2 (λ x z, (x0 :: a) !! Z.to_nat (z - s) = Some x) r'
        (nonzero_from (s + 1) flag) →
      Forall2 (λ x z, a !! Z.to_nat (z - (s + 1)) = Some x) r'
        (nonzero_from (s + 1) flag)).
    { intros r' Hr'.
      apply Forall2_same_length_lookup in Hr' as [Hl' Hl].
      apply Forall2_same_length_lookup. split; [done|].
      intros k x z Hx Hz. specialize (Hl k x z Hx Hz).
      apply list_elem_of_lookup_2 in Hz.
      apply nonzero_from_elem in Hz as [Hz _].
      replace (Z.to_nat (z - s)) with (S (Z.to_nat (z - (s + 1)))) in Hl
        by lia.
      done. }
    cbn [zip zip_with]. destruct (is_nonzero y) eqn:Hy.
    + apply Forall2_cons_inv_r in H as (x & r' & Hx & Hr' & ->).
      rewrite Z.sub_diag in Hx. cbn in Hx. injection Hx as ->.
      rewrite filter_cons_True by done. cbn. f_equal.
      apply (IH (s + 1)%Z); [lia|by apply Hshift].
    + rewrite filter_cons_False by (cbn; congruence).
      apply (IH (s + 1)%Z); [lia|by apply Hshift].
Qed.

(** X19. The land subset does not depend on the sort order: for a cached
    artifact whose variables all have [N] elements and whose
    [latband_sorting] is a permutation of [0..N-1], [FibLandGrid] loads
    with both sort orders, and the active [(lon, lat, gpi)] triples of
    the sorted grid are a permutation of those of the unsorted one. *)
Theorem land_subset_sort_invariant
    (res : Q) (n : Z) (geodatum : string) (w : world) (fp : dataset)
    (lon0 lat0 cell0 gpi0 m1 m2 m3 m4 m5 : list scalar) (zs : list Z) :
  resolution_n res = Ok n →
  geodatum ∈ ["sphere"; "WGS84"] →
  files w !! grid_filename n geodatum = Some fp →
  fp !! "lon" = Some lon0 → fp !! "lat" = Some lat0 →
  fp !! "cell" = Some cell0 → fp !! "gpi" = Some gpi0 →
  fp !! "land_frac_fw" = Some m1 → fp !! "land_frac_hw" = Some m2 →
  fp !! "land_mask_hw" = Some m3 → fp !! "land_mask_fw" = Some m4 →
  fp !! "land_flag" = Some m5 →
  fp !! "latband_sorting" = Some (SInt <$> zs) →
  Forall (λ a, length a = length zs)
    [lon0; lat0; cell0; gpi0; m1; m2; m3; m4; m5] →
  zs ≡ₚ seqZ 0 (Z.of_nat (length zs)) →
  ∃ o0 o1 : grid_object,
    FibLandGrid_init res geodatum "none" w = (Ok o0, w)
    ∧ FibLandGrid_init res geodatum "latband" w = (Ok o1, w)
    ∧ length (activegpis (base o1)) = length (activegpis (base o0))
    ∧ zip (zip (activearrlon (base o1)) (activearrlat (base o1)))
          (activegpis (base o1))
        ≡ₚ zip (zip (activearrlon (base o0)) (activearrlat (base o0)))
               (activegpis (base o0)).
Proof.
  intros Hres Hgeo Hfile Hlon Hlat Hcell Hgpi H1 H2 H3 H4 H5 Hidx Hlen Hperm.
  assert (Hrange : Forall (λ z, 0 ≤ z < Z.of_nat (length zs))%Z zs).
  { apply Forall_forall. intros z Hz. rewrite Hperm in Hz.
    apply elem_of_seqZ in Hz. lia. }
  apply Forall_cons in Hlen as [Llon Hlen].
  apply Forall_cons in Hlen as [Llat Hlen].
  apply Forall_cons in Hlen as [Lcell Hlen].
  apply Forall_cons in Hlen as [Lgpi Hlen].
  pose proof Hlen as Hmeta.
  apply Forall_cons in Hlen as [L1 Hlen].
  apply Forall_cons in Hlen as [L2 Hlen].
  apply Forall_cons in Hlen as [L3 Hlen].
  apply Forall_cons in Hlen as [L4 Hlen].
  apply Forall_cons in Hlen as [L5 _].
  destruct (take_in_range lon0 zs) as (lon1 & Tlon & Glon); [by rewrite Llon|].
  destruct (take_in_range lat0 zs) as (lat1 & Tlat & Glat); [by rewrite Llat|].
  destruct (take_in_range cell0 zs) as (cell1 & Tcell & Gcell);
    [by rewrite Lcell|].
  destruct (take_in_range gpi0 zs) as (gpi1 & Tgpi & Ggpi); [by rewrite Lgpi|].
  destruct (take_in_range m1 zs) as (s1 & T1 & G1); [by rewrite L1|].
  destruct (take_in_range m2 zs) as (s2 & T2 & G2); [by rewrite L2|].
  destruct (take_in_range m3 zs) as (s3 & T3 & G3); [by rewrite L3|].
  destruct (take_in_range m4 zs) as (s4 & T4 & G4); [by rewrite L4|].
  destruct (take_in_range m5 zs) as (s5 & T5 & G5); [by rewrite L5|].
  pose proof (Forall2_length _ _ _ Glon) as Mlon.
  pose proof (Forall2_length _ _ _ Glat) as Mlat.
  pose proof (Forall2_length _ _ _ Gcell) as Mcell.
  pose proof (Forall2_length _ _ _ Ggpi) as Mgpi.
  pose proof (Forall2_length _ _ _ G5) as M5.
  assert (Hslen : Forall (λ a, length a = length zs) [s1; s2; s3; s4; s5]).
  { repeat constructor; by eapply Forall2_length. }
  pose proof (parse_dataset_none fp _ _ _ _ _ _ _ _ _ _
    Hlon Hlat Hcell Hgpi H1 H2 H3 H4 H5 Hmeta) as P0.
  pose proof (parse_dataset_latband fp _ _ _ _ _ _ _ _ _ _ _ _ _ _ _ _ _ _ _
    Hlon Hlat Hcell Hgpi H1 H2 H3 H4 H5 Hidx
    Tlon Tlat Tcell Tgpi T1 T2 T3 T4 T5 Hslen) as P1.
  assert (Htake : ∀ (flag a : list scalar), length a = length flag →
            ∃ r, take a (nonzero flag) = Ok r
                 ∧ gathered a (nonzero flag) r).
  { intros flag a Ha. apply take_in_range.
    rewrite Ha. apply nonzero_in_range. }
  destruct (Htake m5 lon0) as (a0lon & A0lon & B0lon); [congruence|].
  destruct (Htake m5 lat0) as (a0lat & A0lat & B0lat); [congruence|].
  destruct (Htake m5 cell0) as (a0cell & A0cell & B0cell); [congruence|].
  destruct (Htake m5 gpi0) as (a0gpi & A0gpi & B0gpi); [congruence|].
  destruct (Htake s5 lon1) as (a1lon & A1lon & B1lon); [congruence|].
  destruct (Htake s5 lat1) as (a1lat & A1lat & B1lat); [congruence|].
  destruct (Htake s5 cell1) as (a1cell & A1cell & B1cell); [congruence|].
  destruct (Htake s5 gpi1) as (a1gpi & A1gpi & B1gpi); [congruence|].
  assert (Hfilter : ∀ (flag : list scalar) (a r : list (scalar * scalar * scalar)),
            length a = length flag → gathered a (nonzero flag) r →
            r = (filter (λ p, is_nonzero p.2 = true) (zip a flag)).*1).
  { intros flag a r Ha Hr. apply (gathered_nonzero_filter flag 0); [done|].
    eapply Forall2_impl; [exact Hr|]. intros x z Hx. by rewrite Z.sub_0_r. }
  assert (E0 : zip (zip a0lon a0lat) a0gpi
               = (filter (λ p, is_nonzero p.2 = true)
                    (zip (zip (zip lon0 lat0) gpi0) m5)).*1).
  { apply Hfilter.
    - rewrite !length_zip. lia.
    - apply gathered_zip; [apply gathered_zip|]; done. }
  assert (E1 : zip (zip a1lon a1lat) a1gpi
               = (filter (λ p, is_nonzero p.2 = true)
                    (zip (zip (zip lon1 lat1) gpi1) s5)).*1).
  { apply Hfilter.
    - rewrite !length_zip. lia.
    - apply gathered_zip; [apply gathered_zip|]; done. }
  assert (Hzip : zip (zip (zip lon1 lat1) gpi1) s5
                 ≡ₚ zip (zip (zip lon0 lat0) gpi0) m5).
  { eapply gathered_Permutation.
    - apply gathered_zip; [apply gathered_zip; [apply gathered_zip|]|];
        eassumption.
    - rewrite !length_zip, Llon, Llat, Lgpi, L5, !Nat.min_id. exact Hperm. }
  assert (Hact : zip (zip a1lon a1lat) a1gpi ≡ₚ zip (zip a0lon a0lat) a0gpi).
  { rewrite E0, E1. by rewrite Hzip. }
  eexists _, _. split; [|split].
  - unfold FibLandGrid_init. rewrite Hres.
    cbv [mbind io_mbind io_bind lift].
    rewrite (read_grid_file_cached n geodatum "none" w fp Hfile Hgeo)
      by (repeat constructor).
    rewrite P0. cbn [gf_metadata gf_lon gf_lat gf_cell gf_gpi].
    change (field (zip metadata_fields [m1; m2; m3; m4; m5]) "land_flag")
      with (Ok m5).
    unfold CellGrid_init. rewrite A0lon, A0lat, A0cell, A0gpi. reflexivity.
  - unfold FibLandGrid_init. rewrite Hres.
    cbv [mbind io_mbind io_bind lift].
    rewrite (read_grid_file_cached n geodatum "latband" w fp Hfile Hgeo)
      by (repeat constructor).
    rewrite P1. cbn [gf_metadata gf_lon gf_lat gf_cell gf_gpi].
    change (field (zip metadata_fields [s1; s2; s3; s4; s5]) "land_flag")
      with (Ok s5).
    unfold CellGrid_init. rewrite A1lon, A1lat, A1cell, A1gpi. reflexivity.
  - cbn. split; [|exact Hact].
    apply Permutation_length in Hact. rewrite !length_zip in Hact.
    pose proof (Forall2_length _ _ _ B0lon). pose proof (Forall2_length _ _ _ B0lat).
    pose proof (Forall2_length _ _ _ B0gpi). pose proof (Forall2_length _ _ _ B1lon).
    pose proof (Forall2_length _ _ _ B1lat). pose proof (Forall2_length _ _ _ B1gpi).
    lia.
Qed.

Lemma land_subset_sort_invariant_witness :
  resolution_n 25 = Ok 430000%Z
  ∧ files Samples.cached_world !! grid_filename 430000 "WGS84"
      = Some Samples.small_dataset
  ∧ [2; 0; 1]%Z ≡ₚ seqZ 0 (Z.of_nat (length [2; 0; 1]%Z))
  ∧ ∃ o0 o1 : grid_object,
    FibLandGrid_init 25 "WGS84" "none" Samples.cached_world
      = (Ok o0, Samples.cached_world)
    ∧ FibLandGrid_init 25 "WGS84" "latband" Samples.cached_world
      = (Ok o1, Samples.cached_world)
    ∧ length (activegpis (base o1)) = length (activegpis (base o0))
    ∧ zip (zip (activearrlon (base o1)) (activearrlat (base o1)))
          (activegpis (base o1))
        ≡ₚ zip (zip (activearrlon (base o0)) (activearrlat (base o0)))
               (activegpis (base o0)).
Proof.
  assert (Hp : [2; 0; 1]%Z ≡ₚ seqZ 0 (Z.of_nat (length [2; 0; 1]%Z)))
    by exact (Permutation_cons_app [0; 1]%Z [] 2%Z (Permutation_refl _)).
  split; [reflexivity|]. split; [vm_compute; reflexivity|]. split; [exact Hp|].
  apply (land_subset_sort_invariant 25 430000 "WGS84"
           Samples.cached_world Samples.small_dataset
           [SFloat 10; SFloat 20; SFloat (-30)]
           [SFloat 0; SFloat 41; SFloat (-41)]
           [SInt 7; SInt 7; SInt 8] [SInt 0; SInt 1; SInt 2]
           [SFloat 1; SFloat 0; SFloat (1 # 2)]
           [SFloat 1; SFloat 0; SFloat (1 # 2)]
           [SInt 1; SInt 0; SInt 1] [SInt 1; SInt 0; SInt 1]
           [SInt 1; SInt 0; SInt 1] [2; 0; 1]%Z);
    try (vm_compute; reflexivity).
  - repeat constructor.
  - repeat constructor.
  - exact Hp.
Defined.

End RealizationMore.
